(** * Corn Frost App (GEEadas): the time-series pipeline of [corn_frost_app.js]

    The script is an Earth Engine application.  Its own code is the click
    handler [showTimeSeries], the cloud mask [maskS2clouds], the callback that
    classifies the clicked pixel and assembles the charted collection, and the
    chart's click handler that adds imagery layers.  Everything else is a call
    into the Earth Engine client library.

    The development has these parts:
    - [EE]: a model of the Earth Engine values and operations the script
      calls (rasters with masks, images with bands and properties, image
      collections, dates), after the library's API reference;
    - [UI]: the widgets the script mutates and the chart it builds;
    - [App]: the script itself, translated function by function over [EE]
      and [UI], with its handlers as a transition system on the widget state;
    - [Spec]: the vocabulary of the specification;
    - the properties of the pipeline.

    Conventions.  A raster is a function from coordinates to an optional pixel
    value, [None] being a masked pixel.  The Sentinel-2 bands are unsigned
    integers and are modelled in [N]; reflectances after scaling and the
    vegetation index are modelled in exact rational arithmetic ([Q]).  A
    server-side computation that Earth Engine would reject (a missing band, a
    band-count mismatch) returns [None].  The chart is described by the rows
    it plots: one per image of its collection, in the collection's order. *)

From Stdlib Require Import List ZArith NArith QArith Qreduction String Ascii Bool Lia.
From Stdlib Require Import Permutation Sorted Lqa.
From Stdlib Require Import Qround Qabs DecimalString DecimalN.
Import ListNotations.

Local Open Scope Z_scope.

(** ** A small error monad for server-side computations *)

Definition bind {A B : Type} (c : option A) (k : A -> option B) : option B :=
  match c with
  | Some a => k a
  | None => None
  end.

Notation "x <- c ;; k" := (bind c (fun x => k))
  (at level 61, c at next level, right associativity).

Fixpoint mapM {A B : Type} (f : A -> option B) (l : list A) : option (list B) :=
  match l with
  | [] => Some []
  | a :: l' =>
      b <- f a ;;
      bs <- mapM f l' ;;
      Some (b :: bs)
  end.

(** ** Earth Engine *)

Module EE.

(** *** Dates

    [ee.Date('YYYY-MM-DD')] is midnight UTC of that civil day; [millis] is the
    number of milliseconds since 1970-01-01.  The day count is the usual
    proleptic Gregorian one. *)

Definition days_from_civil (y m d : Z) : Z :=
  let y' := if m <=? 2 then y - 1 else y in
  let era := y' / 400 in
  let yoe := y' - era * 400 in
  let mp := if m >? 2 then m - 3 else m + 9 in
  let doy := (153 * mp + 2) / 5 + d - 1 in
  let doe := yoe * 365 + yoe / 4 - yoe / 100 + doy in
  era * 146097 + doe - 719468.

Definition civil_from_days (z : Z) : Z * Z * Z :=
  let z' := z + 719468 in
  let era := z' / 146097 in
  let doe := z' - era * 146097 in
  let yoe := (doe - doe / 1460 + doe / 36524 - doe / 146096) / 365 in
  let doy := doe - (365 * yoe + yoe / 4 - yoe / 100) in
  let mp := (5 * doy + 2) / 153 in
  let d := doy - (153 * mp + 2) / 5 + 1 in
  let m := if mp <? 10 then mp + 3 else mp - 9 in
  let y := yoe + era * 400 in
  ((if m <=? 2 then y + 1 else y), m, d).

Definition ms_per_hour : Z := 3600000.
Definition ms_per_day : Z := 86400000.

(** [ee.Date('y-m-d').millis()] *)
Definition Date (y m d : Z) : Z := days_from_civil y m d * ms_per_day.

Inductive unit_of_time := hour | day.

(** [date.advance(delta, unit)] *)
Definition advance (delta : Z) (u : unit_of_time) (t : Z) : Z :=
  match u with
  | hour => t + delta * ms_per_hour
  | day => t + delta * ms_per_day
  end.

(** *** Rasters and images *)

Record Coords := mkCoords { lon : Q; lat : Q }.

(** The value of one band at every location; [None] is a masked pixel. *)
Definition raster (V : Type) : Type := Coords -> option V.

Definition lift1 {A B : Type} (f : A -> B) (r : raster A) : raster B :=
  fun p => option_map f (r p).

(** A binary pixel operation is masked wherever one operand is. *)
Definition lift2 {A B C : Type} (f : A -> B -> C)
    (ra : raster A) (rb : raster B) : raster C :=
  fun p =>
    match ra p, rb p with
    | Some a, Some b => Some (f a b)
    | _, _ => None
    end.

(** An image: its footprint, the two properties the script reads, and its
    bands in order. *)
Record Image (V : Type) := mkImage {
  footprint : Coords -> bool;
  time_start : option Z;                 (* 'system:time_start' *)
  cloudy_pixel_percentage : option Q;    (* 'CLOUDY_PIXEL_PERCENTAGE' *)
  bands : list (string * raster V)
}.

Arguments mkImage {V}.
Arguments footprint {V}.
Arguments time_start {V}.
Arguments cloudy_pixel_percentage {V}.
Arguments bands {V}.

Definition bandNames {V : Type} (img : Image V) : list string :=
  map fst (bands img).

Definition map_bands {A B : Type} (f : raster A -> raster B)
    (bs : list (string * raster A)) : list (string * raster B) :=
  map (fun b => (fst b, f (snd b))) bs.

(** The result of pixel arithmetic keeps the footprint and the band names of
    its first operand and none of its properties. *)
Definition pixelwise {A B : Type} (f : raster A -> raster B)
    (img : Image A) : Image B :=
  mkImage (footprint img) None None (map_bands f (bands img)).

(** [ee.Image.constant(v)] *)
Definition constant {V : Type} (v : V) : Image V :=
  mkImage (fun _ => true) None None [("constant"%string, fun _ => Some v)].

(** [image.mask(m)] with a numeric mask: a zero mask hides every pixel. *)
Definition mask {V : Type} (m : Z) (img : Image V) : Image V :=
  mkImage (footprint img) (time_start img) (cloudy_pixel_percentage img)
    (map_bands (fun r p => if m =? 0 then None else r p) (bands img)).

Fixpoint lookup {V : Type} (n : string) (bs : list (string * V)) : option V :=
  match bs with
  | [] => None
  | (n', v) :: bs' => if String.eqb n n' then Some v else lookup n bs'
  end.

(** [image.select(names)]: the named bands, in the order asked for; a name
    the image does not have is an error. *)
Definition select {V : Type} (names : list string) (img : Image V)
    : option (Image V) :=
  bs <- mapM (fun n => r <- lookup n (bands img) ;; Some (n, r)) names ;;
  Some (mkImage (footprint img) (time_start img)
          (cloudy_pixel_percentage img) bs).

(** [image.rename(names)]: as many names as bands. *)
Definition rename {V : Type} (names : list string) (img : Image V)
    : option (Image V) :=
  if (List.length names =? List.length (bands img))%nat
  then Some (mkImage (footprint img) (time_start img)
               (cloudy_pixel_percentage img)
               (combine names (map snd (bands img))))
  else None.

(** [dst.addBands(src)] without overwrite: the bands of [src] are appended; a
    name already present gets the suffix [_1].  Metadata is that of [dst]. *)
Definition addBands {V : Type} (dst src : Image V) : Image V :=
  let fresh (b : string * raster V) :=
    match lookup (fst b) (bands dst) with
    | Some _ => (fst b ++ "_1", snd b)%string
    | None => b
    end in
  mkImage (footprint dst) (time_start dst) (cloudy_pixel_percentage dst)
    (bands dst ++ map fresh (bands src)).

(** [image.set('system:time_start', t)] *)
Definition set_time_start {V : Type} (t : Z) (img : Image V) : Image V :=
  mkImage (footprint img) (Some t) (cloudy_pixel_percentage img) (bands img).

(** [dst.copyProperties(src, ['system:time_start'])] *)
Definition copyProperties {A B : Type} (dst : Image A) (src : Image B)
    : Image A :=
  match time_start src with
  | Some t => set_time_start t dst
  | None => dst
  end.

(** Band matching of a binary image operation: a one-band operand is used
    against every band of the other; otherwise the bands are paired in order
    and must be equally many. *)
Definition pair_bands {A B : Type}
    (a : list (string * raster A)) (b : list (string * raster B))
    : option (list (string * (raster A * raster B))) :=
  match a, b with
  | _, [(_, rb)] => Some (map (fun x => (fst x, (snd x, rb))) a)
  | [(_, ra)], _ => Some (map (fun y => (fst y, (ra, snd y))) b)
  | _, _ =>
      if (List.length a =? List.length b)%nat
      then Some (map (fun xy => (fst (fst xy), (snd (fst xy), snd (snd xy))))
                   (combine a b))
      else None
  end.

Definition binop {A B C : Type} (f : A -> B -> C)
    (x : Image A) (y : Image B) : option (Image C) :=
  ps <- pair_bands (bands x) (bands y) ;;
  Some (mkImage (footprint x) None None
          (map (fun p => (fst p, lift2 f (fst (snd p)) (snd (snd p)))) ps)).

(** [image.bitwiseAnd(c)], [image.eq(c)], [image.divide(c)] with a number. *)
Definition bitwiseAnd (img : Image N) (c : N) : Image N :=
  pixelwise (lift1 (fun v => N.land v c)) img.

Definition eq (img : Image N) (c : N) : Image N :=
  pixelwise (lift1 (fun v => if N.eqb v c then 1%N else 0%N)) img.

(** Division yields 0 where the divisor is 0. *)
Definition Qdivide (a b : Q) : Q :=
  if Qeq_bool b 0 then 0%Q else (a / b)%Q.

Definition divide (img : Image N) (c : Q) : Image Q :=
  pixelwise (lift1 (fun v => Qdivide (inject_Z (Z.of_N v)) c)) img.

(** [a.and(b)]: 1 where both are non-zero, 0 elsewhere. *)
Definition and (a b : Image N) : option (Image N) :=
  binop (fun x y => if (N.eqb x 0 || N.eqb y 0)%bool then 0%N else 1%N) a b.

(** [image.updateMask(m)]: a pixel stays visible only where the mask is
    present and non-zero; metadata and footprint are kept. *)
Definition updateMask {V : Type} (img : Image V) (m : Image N)
    : option (Image V) :=
  ps <- pair_bands (bands img) (bands m) ;;
  Some (mkImage (footprint img) (time_start img) (cloudy_pixel_percentage img)
          (map (fun p =>
                  (fst p,
                   fun c : Coords =>
                     match snd (snd p) c with
                     | Some v => if N.eqb v 0 then None else fst (snd p) c
                     | None => None
                     end)) ps)).

(** Modelled from the spec: the pixel formula of Earth Engine's
    [normalizedDifference], a library call whose code is not part of the
    repository.  The spec gives [(nir - red) / (nir + red)] and, for a zero
    denominator, an absent value instead of an error.  (The library also
    masks the result of a negative input; scaled Sentinel-2 reflectances are
    quotients of unsigned values, so that case does not arise here.) *)
Definition nd_pixel (a b : Q) : option Q :=
  if Qeq_bool (a + b) 0 then None else Some ((a - b) / (a + b))%Q.

(** [image.normalizedDifference([n1, n2])]: one band named [nd], masked where
    an input is; the properties of the input are not retained. *)
Definition normalizedDifference (names : list string) (img : Image Q)
    : option (Image Q) :=
  match names with
  | [n1; n2] =>
      r1 <- lookup n1 (bands img) ;;
      r2 <- lookup n2 (bands img) ;;
      Some (mkImage (footprint img) None None
              [("nd"%string,
                fun p => match r1 p, r2 p with
                         | Some a, Some b => nd_pixel a b
                         | _, _ => None
                         end)])
  | _ => None
  end.

(** *** Image collections *)

Definition ImageCollection (V : Type) : Type := list (Image V).

(** [col.filterBounds(point)] *)
Definition filterBounds {V : Type} (p : Coords) (col : ImageCollection V)
    : ImageCollection V :=
  filter (fun img => footprint img p) col.

(** [col.filterDate(start, end)]: start inclusive, end exclusive. *)
Definition filterDate {V : Type} (t0 t1 : Z) (col : ImageCollection V)
    : ImageCollection V :=
  filter (fun img =>
            match time_start img with
            | Some t => (t0 <=? t) && (t <? t1)
            | None => false
            end) col.

(** [col.filter(ee.Filter.lt('CLOUDY_PIXEL_PERCENTAGE', c))] *)
Definition filter_lt_CLOUDY_PIXEL_PERCENTAGE {V : Type} (c : Q)
    (col : ImageCollection V) : ImageCollection V :=
  filter (fun img =>
            match cloudy_pixel_percentage img with
            | Some x => negb (Qle_bool c x)
            | None => false
            end) col.

(** [a.merge(b)] *)
Definition merge {V : Type} (a b : ImageCollection V) : ImageCollection V :=
  a ++ b.

(** [col.first()] *)
Definition first {V : Type} (col : ImageCollection V) : option (Image V) :=
  hd_error col.

(** Order of the sort key; an image without the property sorts first. *)
Definition time_leb (a b : option Z) : bool :=
  match a, b with
  | None, _ => true
  | Some _, None => false
  | Some x, Some y => x <=? y
  end.

Fixpoint insert_by {A : Type} (key : A -> option Z) (x : A) (l : list A)
    : list A :=
  match l with
  | [] => [x]
  | y :: l' =>
      if time_leb (key x) (key y) then x :: y :: l'
      else y :: insert_by key x l'
  end.

Definition sort_by {A : Type} (key : A -> option Z) (l : list A) : list A :=
  fold_right (insert_by key) [] l.

Definition key_le {A : Type} (key : A -> option Z) (a b : A) : Prop :=
  time_leb (key a) (key b) = true.

(** [col.sort('system:time_start')]: ascending, ties in collection order. *)
Definition sort {V : Type} (col : ImageCollection V) : ImageCollection V :=
  sort_by time_start col.

(** *** Reductions at a point *)

Definition Dictionary (V : Type) : Type := list (string * option V).

(** [image.reduceRegion] over a point with the [first] or the [mean]
    reducer: every band's pixel at the point, null where masked. *)
Definition reduceRegion {V : Type} (img : Image V) (p : Coords)
    : Dictionary V :=
  map (fun b => (fst b, snd b p)) (bands img).

End EE.

(** ** The user interface *)

Module UI.

Record VisParams := mkVis {
  vis_color : option string;
  vis_bands : list string;
  vis_min : option Z;
  vis_max : option Z;
  vis_gamma : option Q
}.

Inductive eeObject :=
  | Geometry_Point (p : EE.Coords)
  | ImageObject (img : option (EE.Image N)).

(** [ui.Map.Layer(eeObject, visParams, name, shown)] *)
Record Layer := mkLayer {
  layer_eeObject : eeObject;
  layer_visParams : VisParams;
  layer_name : string;
  layer_shown : bool
}.

(** [list.set(index, element)] of a [ui.data.ActiveList]: an index inside the
    list replaces the element there; the index just past the end (the only
    one the script uses) appends; a larger one is taken to append as well. *)
Fixpoint set {A : Type} (i : nat) (x : A) (l : list A) : list A :=
  match l, i with
  | [], _ => [x]
  | _ :: l', O => x :: l'
  | y :: l', S i' => y :: set i' x l'
  end.

(** [map.addLayer(eeObject, visParams, name)] puts a shown layer on top. *)
Definition addLayer (o : eeObject) (v : VisParams) (n : string)
    (layers : list Layer) : list Layer :=
  layers ++ [mkLayer o v n true].

(** One row of the chart: a timestamp and the value of every selected band,
    absent where the pixel is masked. *)
Record Observation := mkObservation {
  timestamp : option Z;
  channels : EE.Dictionary Q
}.

(** One entry of the chart's [series] option; every entry has type
    ['line']. *)
Record SeriesOption := mkSeries {
  series_index : nat;
  color : string;
  lineWidth : Z;
  pointSize : Z;
  targetAxisIndex : Z;
  labelInLegend : string
}.

(** [ui.Chart.image.series(...).setOptions(...)].  The collection is a
    server-side value; [None] stands for one whose computation fails.  The
    title keeps the status text; the formatted coordinates, the axes and
    [interpolateNulls] are constant decoration and are left out. *)
Record Chart := mkChart {
  imageCollection : option (EE.ImageCollection Q);
  region : EE.Coords;
  title_status : string;
  series : list SeriesOption
}.

(** The rows the chart plots: one per image of the collection, in the
    collection's order, each reduced over the region (a point) with the mean
    reducer; the x value is ['system:time_start']. *)
Definition row (p : EE.Coords) (img : EE.Image Q) : Observation :=
  mkObservation (EE.time_start img) (EE.reduceRegion img p).

Definition rows (c : Chart) : option (list Observation) :=
  option_map (map (row (region c))) (imageCollection c).

Inductive Widget :=
  | Label (value : string) (color : string)
  | ChartWidget (c : Chart)
  | GoogleMapsLink (coords : EE.Coords)
  | Button (label : string).

(** The widgets the script mutates: the layer lists of the two maps and the
    chart panel. *)
Record State := mkState {
  leftMap : list Layer;
  rightMap : list Layer;
  chartPanel_shown : bool;
  chartPanel : list Widget
}.

(** *** [Date.prototype.toISOString], date part *)

Definition digit (n : Z) : ascii := ascii_of_nat (48 + Z.to_nat n).

(** The [k] low decimal digits of a non-negative [n]. *)
Fixpoint digits (k : nat) (n : Z) : string :=
  match k with
  | O => EmptyString
  | S k' => (digits k' (n / 10) ++ String (digit (n mod 10)) EmptyString)%string
  end.

(** [new Date(ms).toISOString().split('T')[0]]; a time value outside the
    range of a Date raises a RangeError ([None]). *)
Definition toISOString_date (ms : Z) : option string :=
  if Z.abs ms >? 8640000000000000 then None
  else
    let '(y, m, d) := EE.civil_from_days (ms / EE.ms_per_day) in
    let year :=
      if (0 <=? y) && (y <=? 9999) then digits 4 y
      else ((if (y <? 0)%Z then "-" else "+") ++ digits 6 (Z.abs y))%string in
    Some (year ++ "-" ++ digits 2 m ++ "-" ++ digits 2 d)%string.

End UI.

(** ** The script *)

Module App.

(** The data the script reads: the Sentinel-2 archive and the classification
    asset.  A scene carries the bands the script names; the other bands of
    the product are never read.  A raster is [None] outside the footprint. *)
Record S2Scene := mkScene {
  scene_footprint : EE.Coords -> bool;
  scene_time_start : Z;
  scene_CLOUDY_PIXEL_PERCENTAGE : Q;
  B2 : EE.raster N;
  B3 : EE.raster N;
  B4 : EE.raster N;
  B8 : EE.raster N;
  B11 : EE.raster N;
  QA60 : EE.raster N
}.

Definition S2_image (s : S2Scene) : EE.Image N :=
  EE.mkImage (scene_footprint s) (Some (scene_time_start s))
    (Some (scene_CLOUDY_PIXEL_PERCENTAGE s))
    [("B2", B2 s); ("B3", B3 s); ("B4", B4 s); ("B8", B8 s);
     ("B11", B11 s); ("QA60", QA60 s)]%string.

(** Band 0: corn mask (2 = corn).  Band 1: frost classification
    (1 = harvested, 2 = frost May 25, 3 = frost June 30, 4 = not affected). *)
Record FrostAsset := mkAsset {
  asset_footprint : EE.Coords -> bool;
  band0 : EE.raster Z;
  band1 : EE.raster Z
}.

Record World := mkWorld {
  S2_SR_HARMONIZED : list S2Scene;
  GEEadas_Corn_Forst_PR : FrostAsset
}.

(** [image.select([0, 1])]: bands by position. *)
Definition select_positions {V : Type} (idx : list nat) (img : EE.Image V)
    : option (EE.Image V) :=
  bs <- mapM (fun i => nth_error (EE.bands img) i) idx ;;
  Some (EE.mkImage (EE.footprint img) (EE.time_start img)
          (EE.cloudy_pixel_percentage img) bs).

(** [result[key]] on the evaluated dictionary; a null entry and a missing key
    both read as [None] (the script only compares the value with [===]). *)
Definition get (key : string) (result : EE.Dictionary Z) : option Z :=
  match EE.lookup key result with
  | Some v => v
  | None => None
  end.

(** [v === n] for a number literal [n]. *)
Definition strict_eq (v : option Z) (n : Z) : bool :=
  match v with
  | Some x => x =? n
  | None => false
  end.

Infix "===" := strict_eq (at level 70, no associativity).

Section Script.

Variable world : World.

Definition frostImage : EE.Image Z :=
  let a := GEEadas_Corn_Forst_PR world in
  EE.mkImage (asset_footprint a) None None
    [("b1", band0 a); ("b2", band1 a)]%string.

Definition S2_collection : EE.ImageCollection N :=
  map S2_image (S2_SR_HARMONIZED world).

Section showTimeSeries.

Variable coords : EE.Coords.

Definition point : EE.Coords := EE.mkCoords (EE.lon coords) (EE.lat coords).

Definition dotLeft : UI.Layer :=
  UI.mkLayer (UI.Geometry_Point point)
    (UI.mkVis (Some "red"%string) [] None None None) "Clicked Point" true.

Definition dotRight : UI.Layer :=
  UI.mkLayer (UI.Geometry_Point point)
    (UI.mkVis (Some "red"%string) [] None None None) "Clicked Point" true.

(** The synchronous part of the handler: reset the chart panel and put a red
    dot on both maps. *)
Definition showTimeSeries (ui : UI.State) : UI.State :=
  UI.mkState
    (UI.set (List.length (UI.leftMap ui)) dotLeft (UI.leftMap ui))
    (UI.set (List.length (UI.rightMap ui)) dotRight (UI.rightMap ui))
    true
    [UI.Label "Loading chart..." "gray"].

(** The study period, after the scene-level cloud filter. *)
Definition s2_chart_filtered : EE.ImageCollection N :=
  EE.filter_lt_CLOUDY_PIXEL_PERCENTAGE 60
    (EE.filterDate (EE.Date 2020 9 1) (EE.Date 2021 10 31)
       (EE.filterBounds point S2_collection)).

Definition cloudBitMask : N := N.shiftl 1 10.
Definition cirrusBitMask : N := N.shiftl 1 11.

(** The mask image computed inside [maskS2clouds]. *)
Definition cloud_mask (image : EE.Image N) : option (EE.Image N) :=
  qa <- EE.select ["QA60"%string] image ;;
  EE.and (EE.eq (EE.bitwiseAnd qa cloudBitMask) 0)
         (EE.eq (EE.bitwiseAnd qa cirrusBitMask) 0).

Definition maskS2clouds (image : EE.Image N) : option (EE.Image Q) :=
  mask <- cloud_mask image ;;
  masked <- EE.updateMask image mask ;;
  Some (EE.copyProperties (EE.divide masked 10000) image).

Definition s2_chart : option (EE.ImageCollection Q) :=
  mapM maskS2clouds s2_chart_filtered.

Definition ndvi (img : EE.Image Q) : option (EE.Image Q) :=
  nd <- EE.normalizedDifference ["B8"; "B4"]%string img ;;
  r <- EE.rename ["NDVI"%string] nd ;;
  Some (EE.copyProperties r img).

Definition s2_ndvi : option (EE.ImageCollection Q) :=
  col <- s2_chart ;;
  mapM ndvi col.

(** [frostImage.select([0, 1]).rename(['Corn', 'Frost']).reduceRegion(...)] *)
Definition frost_result : option (EE.Dictionary Z) :=
  sel <- select_positions [0; 1]%nat frostImage ;;
  img <- EE.rename ["Corn"; "Frost"]%string sel ;;
  Some (EE.reduceRegion img point).

(** *** The callback of [evaluate] *)

Section evaluate.

Variable result : EE.Dictionary Z.

Definition cornVal : option Z := get "Corn" result.
Definition frostVal : option Z := get "Frost" result.

Definition isCorn : bool := cornVal === 2.

(** [(statusText, lineColor)] *)
Definition status : string * string :=
  if negb isCorn then ("No corn mask", "black")%string
  else if frostVal === 1 then ("Harvested", "#00FFFF")%string
  else if frostVal === 2 then ("Affected by Frost: May 25", "#FF00FF")%string
  else if frostVal === 3 then ("Affected by Frost: June 30", "#0000FF")%string
  else if frostVal === 4 then ("Not Affected", "#008000")%string
  else ("Unknown Class", "gray")%string.

Definition statusText : string := fst status.
Definition lineColor : string := snd status.

Definition isFrostEvent : bool :=
  isCorn && ((frostVal === 2) || (frostVal === 3)).

(** ['2021-05-25'] or ['2021-06-30'] *)
Definition d : Z * Z * Z :=
  if frostVal === 2 then (2021, 5, 25) else (2021, 6, 30).

Definition t1 : Z := let '(y, m, dd) := d in EE.Date y m dd.
Definition t2 : Z := let '(y, m, dd) := d in EE.advance 1 EE.hour (EE.Date y m dd).

(** [ee.Image.constant(0).mask(0).rename(name)] *)
Definition masked_band (name : string) : option (EE.Image Q) :=
  EE.rename [name] (EE.mask 0 (EE.constant 0%Q)).

Definition frostImg1 : option (EE.Image Q) :=
  fm <- EE.rename ["FrostMarker"%string] (EE.constant 0%Q) ;;
  nd <- masked_band "NDVI" ;;
  Some (EE.set_time_start t1 (EE.addBands fm nd)).

Definition frostImg2 : option (EE.Image Q) :=
  fm <- EE.rename ["FrostMarker"%string] (EE.constant 1%Q) ;;
  nd <- masked_band "NDVI" ;;
  Some (EE.set_time_start t2 (EE.addBands fm nd)).

Definition frostLineCol : option (EE.ImageCollection Q) :=
  i1 <- frostImg1 ;;
  i2 <- frostImg2 ;;
  Some [i1; i2].

(** The function mapped over the collection in the frost branch. *)
Definition addFrostMarker (img : EE.Image Q) : option (EE.Image Q) :=
  fm <- masked_band "FrostMarker" ;;
  Some (EE.addBands img fm).

Definition combinedCol : option (EE.ImageCollection Q) :=
  if isFrostEvent then
    line <- frostLineCol ;;
    col <- s2_ndvi ;;
    col' <- mapM addFrostMarker col ;;
    Some (EE.sort (EE.merge col' line))
  else s2_ndvi.

Definition bandsToSelect : list string :=
  if isFrostEvent then ["FrostMarker"; "NDVI"]%string else ["NDVI"%string].

Definition seriesOptions : list UI.SeriesOption :=
  if isFrostEvent then
    [UI.mkSeries 0 "black" 1 0 1 "Frost Event";
     UI.mkSeries 1 lineColor 2 3 0 "NDVI"]
  else
    [UI.mkSeries 0 lineColor 2 3 0 "NDVI"].

Definition chart : UI.Chart :=
  UI.mkChart
    (col <- combinedCol ;; mapM (EE.select bandsToSelect) col)
    point statusText seriesOptions.

(** What the callback leaves in the chart panel. *)
Definition callback (ui : UI.State) : UI.State :=
  UI.mkState (UI.leftMap ui) (UI.rightMap ui) (UI.chartPanel_shown ui)
    [UI.ChartWidget chart; UI.GoogleMapsLink coords; UI.Button "Close Chart"].

End evaluate.

(** The asynchronous part: [evaluate] delivers the sampled dictionary to the
    callback.  When the sample fails the callback reads a property of
    [undefined], throws, and the panel keeps its loading label. *)
Definition evaluated (ui : UI.State) : UI.State :=
  match frost_result with
  | Some result => callback result ui
  | None => ui
  end.

(** *** The chart's click handler *)

Definition rgbVis : UI.VisParams :=
  UI.mkVis None ["B4"; "B3"; "B2"]%string (Some 0) (Some 3000) (Some 1.4%Q).

Definition falseVis : UI.VisParams :=
  UI.mkVis None ["B8"; "B11"; "B4"]%string (Some 0) (Some 3000) (Some 1.4%Q).

(** [xValue] is [None] for [null], the millisecond timestamp otherwise. *)
Definition chart_onClick (xValue : option Z) (ui : UI.State) : UI.State :=
  match xValue with
  | None => ui
  | Some x =>
      if x =? 0 then ui
      else
        match UI.toISOString_date x with
        | None => ui
        | Some dateStr =>
            let dateEE := x in
            let img :=
              EE.first
                (EE.filterDate dateEE (EE.advance 1 EE.day dateEE)
                   (EE.filterBounds point S2_collection)) in
            let right1 :=
              UI.addLayer (UI.ImageObject img) rgbVis
                ("Clicked Date RGB (" ++ dateStr ++ ")")%string
                (UI.rightMap ui) in
            let right2 :=
              UI.addLayer (UI.ImageObject img) falseVis
                ("Clicked Date False Color (" ++ dateStr ++ ")")%string
                right1 in
            UI.mkState (UI.leftMap ui) right2 (UI.chartPanel_shown ui)
              (UI.chartPanel ui)
        end
  end.

(** The 'Close Chart' button. *)
Definition closeChart (ui : UI.State) : UI.State :=
  UI.mkState (UI.leftMap ui) (UI.rightMap ui) false (UI.chartPanel ui).

End showTimeSeries.

(** *** The handlers as a transition system *)

Inductive Event :=
  | MapClick (coords : EE.Coords)
  | Evaluated (coords : EE.Coords)
  | ChartClick (coords : EE.Coords) (xValue : option Z)
  | CloseChart.

Definition step (ui : UI.State) (e : Event) : UI.State :=
  match e with
  | MapClick c => showTimeSeries c ui
  | Evaluated c => evaluated c ui
  | ChartClick c x => chart_onClick c x ui
  | CloseChart => closeChart ui
  end.

Definition run (ui : UI.State) (es : list Event) : UI.State :=
  fold_left step es ui.

(** A map click together with the delivery of its sample. *)
Definition click (c : EE.Coords) (ui : UI.State) : UI.State :=
  evaluated c (showTimeSeries c ui).

(** The chart a state shows, if any. *)
Definition shown_chart (ui : UI.State) : option UI.Chart :=
  match UI.chartPanel ui with
  | UI.ChartWidget c :: _ => Some c
  | _ => None
  end.

End Script.
End App.

(** ** The specification's vocabulary

    The definitions of this module follow the words of the specification, not
    the code; the theorems below relate the two. *)

Module Spec.

(** "true iff neither flag bit is set": bit 10 is the cloud flag, bit 11 the
    cirrus flag. *)
Definition usable (qa : N) : bool :=
  negb (N.testbit qa 10) && negb (N.testbit qa 11).

(** "divide by 10000" *)
Definition scale (v : N) : Q := (inject_Z (Z.of_N v) / 10000)%Q.

(** The index of one archive scene at a point: absent when the pixel is
    flagged or a band is missing there, the normalized difference of the
    scaled near-infrared and red reflectances otherwise. *)
Definition ndvi_at (s : App.S2Scene) (p : EE.Coords) : option Q :=
  match App.QA60 s p with
  | Some qa =>
      if usable qa then
        match App.B8 s p, App.B4 s p with
        | Some nir, Some red => EE.nd_pixel (scale nir) (scale red)
        | _, _ => None
        end
      else None
  | None => None
  end.

(** The study window and the scene-level pre-filter. *)
Definition in_study_window (t : Z) : bool :=
  (EE.Date 2020 9 1 <=? t) && (t <? EE.Date 2021 10 31).

Definition selected (w : App.World) (p : EE.Coords) : list App.S2Scene :=
  filter (fun s => negb (Qle_bool 60 (App.scene_CLOUDY_PIXEL_PERCENTAGE s)))
    (filter (fun s => in_study_window (App.scene_time_start s))
       (filter (fun s => App.scene_footprint s p) (App.S2_SR_HARMONIZED w))).

(** A real observation, index channel only. *)
Definition real_obs (p : EE.Coords) (s : App.S2Scene) : UI.Observation :=
  UI.mkObservation (Some (App.scene_time_start s))
    [("NDVI"%string, ndvi_at s p)].

(** A real observation with the explicitly absent marker channel. *)
Definition real_obs_marked (p : EE.Coords) (s : App.S2Scene)
    : UI.Observation :=
  UI.mkObservation (Some (App.scene_time_start s))
    [("FrostMarker"%string, None); ("NDVI"%string, ndvi_at s p)].

(** A synthetic observation: a marker value and no index. *)
Definition marker (t : Z) (v : Q) : UI.Observation :=
  UI.mkObservation (Some t)
    [("FrostMarker"%string, Some v); ("NDVI"%string, None)].

Definition is_synthetic (o : UI.Observation) : bool :=
  match EE.lookup "FrostMarker" (UI.channels o) with
  | Some (Some _) => true
  | _ => false
  end.

Inductive Category :=
  | not_crop | harvested | frost_event_A | frost_event_B | unaffected
  | unknown.

Inductive Color := black | cyan | magenta | blue | green | gray.

(** The decision table of the classifier. *)
Definition decision_table (cropMask frostClass : option Z)
    : Category * Color :=
  match cropMask with
  | Some 2 =>
      match frostClass with
      | Some 1 => (harvested, cyan)
      | Some 2 => (frost_event_A, magenta)
      | Some 3 => (frost_event_B, blue)
      | Some 4 => (unaffected, green)
      | _ => (unknown, gray)
      end
  | _ => (not_crop, black)
  end.

(** How the script spells the categories and the colors. *)
Definition label (c : Category) : string :=
  match c with
  | not_crop => "No corn mask"
  | harvested => "Harvested"
  | frost_event_A => "Affected by Frost: May 25"
  | frost_event_B => "Affected by Frost: June 30"
  | unaffected => "Not Affected"
  | unknown => "Unknown Class"
  end.

Definition token (c : Color) : string :=
  match c with
  | black => "black"
  | cyan => "#00FFFF"
  | magenta => "#FF00FF"
  | blue => "#0000FF"
  | green => "#008000"
  | gray => "gray"
  end.

Definition is_frost_event (c : Category) : bool :=
  match c with
  | frost_event_A | frost_event_B => true
  | _ => false
  end.

(** "A -> May 25 of the study year, B -> June 30", at 00:00, in
    milliseconds. *)
Definition event_time (c : Category) : option Z :=
  match c with
  | frost_event_A => Some (EE.Date 2021 5 25)
  | frost_event_B => Some (EE.Date 2021 6 30)
  | _ => None
  end.

(** The synthetic observations of a category. *)
Definition markers (c : Category) : list UI.Observation :=
  match event_time c with
  | Some t => [marker t 0; marker (t + 3600000) 1]
  | None => []
  end.

(** The category of a sampled dictionary. *)
Definition category (result : EE.Dictionary Z) : Category :=
  fst (decision_table (App.cornVal result) (App.frostVal result)).

(** Non-decreasing timestamps, every one of them present. *)
Definition chronological (l : list UI.Observation) : Prop :=
  StronglySorted
    (fun a b =>
       exists x y, UI.timestamp a = Some x /\ UI.timestamp b = Some y /\ x <= y)
    l.

(** The dictionary the classification asset yields at a point. *)
Definition sample (w : App.World) (p : EE.Coords) : EE.Dictionary Z :=
  [("Corn"%string, App.band0 (App.GEEadas_Corn_Forst_PR w) p);
   ("Frost"%string, App.band1 (App.GEEadas_Corn_Forst_PR w) p)].

(** The classification a chart displays: the status in its title and the
    color of its NDVI line. *)
Definition classification (ch : UI.Chart) : string * list string :=
  (UI.title_status ch,
   map UI.color
     (filter (fun o => String.eqb (UI.labelInLegend o) "NDVI") (UI.series ch))).

(** A timeline click the handler acts on: a non-null, non-zero time value in
    the range of a Date. *)
Definition accepted (xValue : option Z) : bool :=
  match xValue with
  | Some x => negb (x =? 0) && (Z.abs x <=? 8640000000000000)
  | None => false
  end.

End Spec.

(** ** The pipeline in closed form

    Auxiliary definitions for the proofs: what the pipeline computes, read at
    the clicked point. *)

Module Derived.

(** The charted series in closed form: the real observations of the selected
    scenes, in archive order; for a frost event they carry the absent marker
    channel and are merged with the synthetic observations and sorted by
    timestamp. *)
Definition series (w : App.World) (p : EE.Coords) (c : Spec.Category)
    : list UI.Observation :=
  if Spec.is_frost_event c then
    EE.sort_by UI.timestamp
      (map (Spec.real_obs_marked p) (Spec.selected w p) ++ Spec.markers c)
  else map (Spec.real_obs p) (Spec.selected w p).

(** The image the pipeline derives from a scene, as far as the point [p]
    shows it. *)
Definition ndvi_image_of (p : EE.Coords) (s : App.S2Scene) (img : EE.Image Q)
    : Prop :=
  exists r,
    img = EE.mkImage (App.scene_footprint s) (Some (App.scene_time_start s))
            None [("NDVI"%string, r)]
    /\ r p = Spec.ndvi_at s p.

Definition marked_image_of (p : EE.Coords) (s : App.S2Scene)
    (img : EE.Image Q) : Prop :=
  exists r fm,
    img = EE.mkImage (App.scene_footprint s) (Some (App.scene_time_start s))
            None [("NDVI"%string, r); ("FrostMarker"%string, fm)]
    /\ r p = Spec.ndvi_at s p
    /\ forall q, fm q = None.

(** The row of [img.select(names)], read off [img] itself. *)
Definition selected_row (names : list string) (p : EE.Coords)
    (img : EE.Image Q) : UI.Observation :=
  UI.mkObservation (EE.time_start img)
    (map (fun n =>
            (n, match EE.lookup n (EE.bands img) with
                | Some r => r p
                | None => None
                end)) names).

(** The image has every band of [names]. *)
Definition has_bands (names : list string) (img : EE.Image Q) : Prop :=
  Forall (fun n => EE.lookup n (EE.bands img) <> None) names.

End Derived.

(** ** Sample data *)

Module Examples.

(** A location in Western Parana. *)
Definition p0 : EE.Coords := EE.mkCoords (-107 # 2) (-49 # 2).

(** A scene that covers every location with the same pixel, 10 percent
    cloudy as a whole. *)
Definition scene (t : Z) (qa b8 b4 : N) : App.S2Scene :=
  App.mkScene (fun _ => true) t (10 # 1)
    (fun _ => Some 800%N) (fun _ => Some 900%N) (fun _ => Some b4)
    (fun _ => Some b8) (fun _ => Some 1500%N) (fun _ => Some qa).

Definition asset (corn frost : option Z) : App.FrostAsset :=
  App.mkAsset (fun _ => true) (fun _ => corn) (fun _ => frost).

(** Clear, near-infrared 0.5 and red 0.1. *)
Definition mar16 : App.S2Scene := scene (EE.Date 2021 3 16) 0 5000 1000.
Definition jan01 : App.S2Scene := scene (EE.Date 2021 1 1) 0 3000 1000.
(** The cloud bit (bit 10) is set. *)
Definition cloudy : App.S2Scene := scene (EE.Date 2021 4 20) 1024 3000 1000.
(** Clear, both reflectances zero. *)
Definition dark : App.S2Scene := scene (EE.Date 2021 6 4) 0 0 0.

(** A harvested corn pixel; the archive lists March before January. *)
Definition harvested_world : App.World :=
  App.mkWorld [mar16; jan01] (asset (Some 2) (Some 1)).

(** A corn pixel hit by the frost of May 25. *)
Definition frost_world : App.World :=
  App.mkWorld [mar16; jan01; cloudy; dark] (asset (Some 2) (Some 2)).

(** A pixel outside the corn mask with one cloudy scene. *)
Definition cloudy_world : App.World :=
  App.mkWorld [cloudy] (asset (Some 1) (Some 1)).

(** A pixel where the classification raster has no data. *)
Definition nodata_world : App.World :=
  App.mkWorld [mar16] (asset None None).

Definition ui0 : UI.State := UI.mkState [] [] false [].

End Examples.

(** ** Calendar dates as the script writes them *)

Module Calendar.

Definition is_leap (y : Z) : bool :=
  ((y mod 4 =? 0) && negb (y mod 100 =? 0)) || (y mod 400 =? 0).

Definition days_in_month (y m : Z) : Z :=
  if m =? 2 then (if is_leap y then 29 else 28)
  else if (m =? 4) || (m =? 6) || (m =? 9) || (m =? 11) then 30
  else 31.

Definition valid_date (y m d : Z) : bool :=
  (1 <=? m) && (m <=? 12) && (1 <=? d) && (d <=? days_in_month y m).

(** The value of a decimal digit character. *)
Definition digit_value (c : ascii) : option Z :=
  let n := Z.of_nat (nat_of_ascii c) in
  if (48 <=? n) && (n <=? 57) then Some (n - 48) else None.

(** The fields of a ['YYYY-MM-DD'] string, the only date format the script
    writes. *)
Definition parse_ymd (s : string) : option (Z * Z * Z) :=
  match s with
  | String y3 (String y2 (String y1 (String y0 (String s1
      (String m1 (String m0 (String s2
        (String d1 (String d0 EmptyString))))))))) =>
      if (Ascii.eqb s1 "-" && Ascii.eqb s2 "-")%bool then
        a <- digit_value y3 ;; b <- digit_value y2 ;;
        c <- digit_value y1 ;; d <- digit_value y0 ;;
        e <- digit_value m1 ;; f <- digit_value m0 ;;
        g <- digit_value d1 ;; h <- digit_value d0 ;;
        Some (1000 * a + 100 * b + 10 * c + d, 10 * e + f, 10 * g + h)
      else None
  | _ => None
  end.

(** [ee.Date(s).millis()] for a date string: midnight UTC of that day; a
    string that is not a date of the calendar is an error. *)
Definition Date_of_string (s : string) : option Z :=
  match parse_ymd s with
  | Some (y, m, d) =>
      if valid_date y m d then Some (EE.Date y m d) else None
  | None => None
  end.

(** The pieces of [EE.days_from_civil] and [EE.civil_from_days]: a 400-year
    era starts on March 1; [year_start] is the first day of a year of the
    era, [doy_of] the day of the year of a date, and the other two go
    back. *)
Definition year_start (yoe : Z) : Z := yoe * 365 + yoe / 4 - yoe / 100.

Definition year_length (yoe : Z) : Z := if is_leap (yoe + 1) then 366 else 365.

Definition doy_of (m d : Z) : Z :=
  let mp := if m >? 2 then m - 3 else m + 9 in
  (153 * mp + 2) / 5 + d - 1.

Definition year_of_doe (doe : Z) : Z :=
  (doe - doe / 1460 + doe / 36524 - doe / 146096) / 365.

Definition md_of_doy (doy : Z) : Z * Z :=
  let mp := (5 * doy + 2) / 153 in
  let d := doy - (153 * mp + 2) / 5 + 1 in
  let m := if mp <? 10 then mp + 3 else mp - 9 in
  (m, d).

(** [P] holds of the [n] integers from [z] on. *)
Fixpoint all_from (n : nat) (z : Z) (P : Z -> bool) : bool :=
  match n with
  | O => true
  | S k => P z && all_from k (z + 1) P
  end.

(** What is checked of each year of an era: the year formula is right on its
    first and last day, and the next year starts where it ends. *)
Definition year_ok (y : Z) : bool :=
  (year_of_doe (year_start y) =? y)
  && (year_of_doe (year_start y + year_length y - 1) =? y)
  && (if y =? 399 then year_start y + year_length y =? 146097
      else year_start (y + 1) =? year_start y + year_length y).

(** What is checked of each day of a year. *)
Definition doy_ok (doy : Z) : bool :=
  let '(m, d) := md_of_doy doy in
  (1 <=? m) && (m <=? 12) && (1 <=? d)
  && (d <=? (if m =? 2 then (if doy =? 365 then 29 else 28)
             else days_in_month 1 m))
  && (doy_of m d =? doy)
  && (Bool.eqb (m <=? 2) (306 <=? doy)).

(** What is checked of each day of each month. *)
Definition md_ok (m d : Z) : bool :=
  implb (d <=? (if m =? 2 then 29 else days_in_month 1 m))
    ((0 <=? doy_of m d) && (doy_of m d <=? 365)
     && (let '(m', d') := md_of_doy (doy_of m d) in (m' =? m) && (d' =? d))
     && (Bool.eqb (doy_of m d =? 365) ((m =? 2) && (d =? 29)))).

End Calendar.

(** ** The static part of the script *)

Module Setup.

(** [frostVis] *)
Record PaletteVis := mkPaletteVis {
  palette_min : Z;
  palette_max : Z;
  palette : list string
}.

Definition frostVis : PaletteVis :=
  mkPaletteVis 1 4 ["#00FFFF"; "#FF00FF"; "#0000FF"; "#008000"]%string.

(** [getVisParams(bands)] *)
Definition getVisParams (bands : list string) : UI.VisParams :=
  UI.mkVis None bands (Some 0) (Some 3000) (Some 1.4%Q).

(** [image.eq(c)] on an integer image: 1 where equal, 0 elsewhere. *)
Definition eq (img : EE.Image Z) (c : Z) : EE.Image N :=
  EE.pixelwise (EE.lift1 (fun v => if v =? c then 1%N else 0%N)) img.

(** [col.mosaic()]: the bands of the first image; at each pixel the value of
    the last image of the collection that is not masked there. *)
Definition mosaic {V : Type} (col : EE.ImageCollection V) : EE.Image V :=
  match col with
  | [] => EE.mkImage (fun _ => false) None None []
  | top :: _ =>
      EE.mkImage (fun p => existsb (fun i => EE.footprint i p) col) None None
        (map (fun b =>
                (fst b,
                 fun p =>
                   fold_left
                     (fun acc i =>
                        match EE.lookup (fst b) (EE.bands i) with
                        | Some r =>
                            match r p with
                            | Some v => Some v
                            | None => acc
                            end
                        | None => acc
                        end) col None))
           (EE.bands top))
  end.

(** [map.addLayer(eeObject, visParams, name, shown)] *)
Definition addLayer (o : UI.eeObject) (v : UI.VisParams) (n : string)
    (shown : bool) (layers : list UI.Layer) : list UI.Layer :=
  layers ++ [UI.mkLayer o v n shown].

(** The two widgets of a legend row: the color box and the description. *)
Record LegendRow := mkLegendRow {
  colorBox_backgroundColor : string;
  desc_value : string
}.

Definition makeLegendRow (color name : string) : LegendRow :=
  mkLegendRow color name.

Definition legendPanel : list LegendRow :=
  [makeLegendRow "#00FFFF" "Harvested";
   makeLegendRow "#FF00FF" "Frost Event: May 25";
   makeLegendRow "#0000FF" "Frost Event: June 30";
   makeLegendRow "#008000" "Not Affected"].

Definition dates : list string :=
  ["2021-03-16"; "2021-04-20"; "2021-06-04"; "2021-07-09"; "2021-07-29"]%string.

Section Script.

Variable world : App.World.

(** Whether the footprint of a scene meets the geometry of the
    classification asset ([filterBounds(frostImage.geometry())]); geometry
    is outside this model and the test is a parameter. *)
Variable meets_asset : App.S2Scene -> bool.

Definition cornBand : option (EE.Image Z) :=
  App.select_positions [0%nat] (App.frostImage world).

Definition frostBand : option (EE.Image Z) :=
  App.select_positions [1%nat] (App.frostImage world).

Definition cornMask : option (EE.Image N) :=
  b <- cornBand ;; Some (eq b 2).

(** [frostBand.updateMask(cornMask)], the layer of the left map. *)
Definition frostLayer : option (EE.Image Z) :=
  m <- cornMask ;;
  b <- frostBand ;;
  EE.updateMask b m.

Definition s2 : EE.ImageCollection N :=
  map App.S2_image (filter meets_asset (App.S2_SR_HARMONIZED world)).

(** The body of [dates.forEach]. *)
Definition add_date (index : nat) (date : string) (layers : list UI.Layer)
    : list UI.Layer :=
  let img :=
    d <- Calendar.Date_of_string date ;;
    Some (mosaic (EE.filterDate d (EE.advance 1 EE.day d) s2)) in
  let show := Nat.eqb index 0 in
  addLayer (UI.ImageObject img) (getVisParams ["B8"; "B11"; "B4"]%string)
    (date ++ " (False Color)")%string false
    (addLayer (UI.ImageObject img) (getVisParams ["B4"; "B3"; "B2"]%string)
       (date ++ " (RGB)")%string show layers).

Fixpoint forEach (index : nat) (ds : list string) (layers : list UI.Layer)
    : list UI.Layer :=
  match ds with
  | [] => layers
  | date :: ds' => forEach (S index) ds' (add_date index date layers)
  end.

(** The layers of the right map when the script has loaded. *)
Definition rightMap : list UI.Layer := forEach 0 dates [].

End Script.
End Setup.

(** ** What a run of events adds *)

Module Trace.

(** The points of the map clicks of a run, in order. *)
Definition map_clicks (es : list App.Event) : list EE.Coords :=
  flat_map (fun e => match e with App.MapClick c => [c] | _ => [] end) es.

(** The timeline clicks of a run that the handler acts on. *)
Definition accepted_clicks (es : list App.Event) : list (EE.Coords * Z) :=
  flat_map
    (fun e =>
       match e with
       | App.ChartClick c (Some x) =>
           if Spec.accepted (Some x) then [(c, x)] else []
       | _ => []
       end) es.

(** The layers one event puts on the right map. *)
Definition right_layers (w : App.World) (e : App.Event) : list UI.Layer :=
  UI.rightMap (App.step w (UI.mkState [] [] false []) e).

(** Whether a timeline click at [x] on the chart of [p] can show a scene. *)
Definition click_matches (p : EE.Coords) (x : Z) (s : App.S2Scene) : bool :=
  App.scene_footprint s p
  && ((x <=? App.scene_time_start s) && (App.scene_time_start s <? x + 86400000)).

(** The label of the series that draws a band. *)
Definition legend_of (band : string) : string :=
  if String.eqb band "NDVI" then "NDVI" else "Frost Event".

End Trace.

(** * The chart title *)

Module Title.

Local Open Scope string_scope.

Fixpoint take (n : nat) (s : string) : string :=
  match n, s with
  | S n', String c s' => String c (take n' s')
  | _, _ => ""
  end.

Fixpoint drop (n : nat) (s : string) : string :=
  match n, s with
  | S n', String _ s' => drop n' s'
  | _, _ => s
  end.

Fixpoint zeros (n : nat) : string :=
  match n with
  | O => ""
  | S n' => String "0" (zeros n')
  end.

(** The digits of [n] with a point before the last four: [m] is padded with
    zeros to five characters, [a] is its first [k - 4] characters and [b] the
    remaining four. *)
Definition digits_with_point (n : N) : string :=
  let m := NilZero.string_of_uint (N.to_uint n) in
  let k := String.length m in
  let m := if (k <=? 4)%nat then zeros (4 + 1 - k) ++ m else m in
  let k := if (k <=? 4)%nat then (4 + 1)%nat else k in
  let a := take (k - 4) m in
  let b := drop (k - 4) m in
  a ++ String "." b.

(** [Number.prototype.toFixed(4)]: the sign, then the integer [n] nearest to
    [x * 10^4] (the larger one on a tie) printed by [digits_with_point].  At
    [10^21] and beyond the method leaves fixed notation; that case is [None]
    here. *)
Definition toFixed4 (x : Q) : option string :=
  let s := if Qle_bool 0 x then "" else "-" in
  let x := if Qle_bool 0 x then x else (- x)%Q in
  if Qle_bool (inject_Z (10 ^ 21)) x then None else
  let n := Z.to_N (Qfloor (x * inject_Z 10000 + (1 # 2))) in
  Some (s ++ digits_with_point n).

(** [var titleStr = 'Sentinel-2 NDVI | ' + statusText + ' | Lat: ' + ...] *)
Definition titleStr (coords : EE.Coords) (result : EE.Dictionary Z)
  : option string :=
  lat <- toFixed4 (EE.lat coords) ;;
  lon <- toFixed4 (EE.lon coords) ;;
  Some ("Sentinel-2 NDVI | " ++ App.statusText result ++ " | Lat: " ++ lat
        ++ " Lon: " ++ lon).

(** Reading a printed number back: digits, a point and four more digits,
    after an optional minus sign. *)
Definition magnitude_of_fixed (body : string) : option Q :=
  let k := String.length body in
  if negb (String.eqb (take 1 (drop (k - 5) body)) ".") then None else
  if (k <=? 5)%nat then None else
  match NilEmpty.uint_of_string (take (k - 5) body ++ drop (k - 4) body) with
  | Some d => Some (inject_Z (Z.of_N (N.of_uint d)) / inject_Z 10000)%Q
  | None => None
  end.

Definition value_of_fixed (s : string) : option Q :=
  match s with
  | String c r =>
      if Ascii.eqb c "-" then option_map Qopp (magnitude_of_fixed r)
      else magnitude_of_fixed s
  | "" => None
  end.

End Title.

(** * Properties *)

(** ** The error monad *)

Lemma mapM_map {A B C : Type} (g : A -> B) (f : B -> option C) (l : list A) :
  mapM f (map g l) = mapM (fun x => f (g x)) l.
Proof.
  induction l as [|a l IH]; simpl; [reflexivity|].
  now rewrite IH.
Qed.

Lemma mapM_bind {A B C : Type} (f : A -> option B) (g : B -> option C)
    (l : list A) :
  (l' <- mapM f l ;; mapM g l') = mapM (fun x => y <- f x ;; g y) l.
Proof.
  induction l as [|a l IH]; simpl; [reflexivity|].
  destruct (f a) as [b|]; simpl; [|reflexivity].
  rewrite <- IH.
  destruct (mapM f l) as [bs|]; simpl.
  - reflexivity.
  - now destruct (g b).
Qed.

(** A step that succeeds on related inputs succeeds on the whole list. *)
Lemma mapM_Forall2 {A B C : Type} (R : A -> B -> Prop) (R' : A -> C -> Prop)
    (g : B -> option C) (l : list A) (col : list B) :
  Forall2 R l col ->
  (forall x y, R x y -> exists z, g y = Some z /\ R' x z) ->
  exists col', mapM g col = Some col' /\ Forall2 R' l col'.
Proof.
  intros HF Hstep.
  induction HF as [|x y l col Hxy HF IH]; simpl.
  - exists []. split; [reflexivity|constructor].
  - destruct (Hstep x y Hxy) as [z [Hz HR]].
    destruct IH as [col' [Hcol HF']].
    exists (z :: col'). rewrite Hz, Hcol. simpl.
    split; [reflexivity|now constructor].
Qed.

Lemma mapM_total {A B : Type} (R : A -> B -> Prop) (f : A -> option B)
    (l : list A) :
  (forall x, exists y, f x = Some y /\ R x y) ->
  exists l', mapM f l = Some l' /\ Forall2 R l l'.
Proof.
  intros Hf.
  induction l as [|a l [l' [Hl HF]]]; simpl.
  - exists []. split; [reflexivity|constructor].
  - destruct (Hf a) as [y [Hy HR]].
    exists (y :: l'). rewrite Hy, Hl. simpl.
    split; [reflexivity|now constructor].
Qed.

Lemma mapM_Some_map {A B C : Type} (f : A -> option B) (h : B -> C)
    (k : A -> C) (l : list A) (l' : list B) :
  mapM f l = Some l' ->
  (forall x y, In x l -> f x = Some y -> h y = k x) ->
  map h l' = map k l.
Proof.
  revert l'.
  induction l as [|a l IH]; simpl; intros l' Hl Hk.
  - injection Hl as <-. reflexivity.
  - destruct (f a) as [b|] eqn:Hb; simpl in Hl; [|discriminate].
    destruct (mapM f l) as [bs|] eqn:Hbs; simpl in Hl; [|discriminate].
    injection Hl as <-. simpl.
    rewrite (Hk a b); auto.
    f_equal. apply IH; auto.
Qed.

Lemma mapM_succeeds {A B : Type} (f : A -> option B) (l : list A) :
  Forall (fun x => f x <> None) l -> exists l', mapM f l = Some l'.
Proof.
  induction 1 as [|a l Ha _ [l' Hl]]; simpl.
  - now exists [].
  - destruct (f a) as [b|]; [|congruence].
    exists (b :: l'). now rewrite Hl.
Qed.

Lemma Forall2_map_eq {A B C : Type} (R : A -> B -> Prop) (h : B -> C)
    (k : A -> C) (l : list A) (l' : list B) :
  Forall2 R l l' ->
  (forall x y, R x y -> h y = k x) ->
  map h l' = map k l.
Proof.
  intros HF Hk.
  induction HF as [|x y l l' Hxy _ IH]; simpl; [reflexivity|].
  now rewrite (Hk x y Hxy), IH.
Qed.

Lemma Forall2_Forall_r {A B : Type} (R : A -> B -> Prop) (P : B -> Prop)
    (l : list A) (l' : list B) :
  Forall2 R l l' -> (forall x y, R x y -> P y) -> Forall P l'.
Proof.
  intros HF HP.
  induction HF; constructor; eauto.
Qed.

Lemma filter_map_comm {A B : Type} (g : A -> B) (P : B -> bool) (l : list A) :
  filter P (map g l) = map g (filter (fun x => P (g x)) l).
Proof.
  induction l as [|a l IH]; simpl; [reflexivity|].
  destruct (P (g a)); simpl; now rewrite IH.
Qed.

(** ** The sort *)

Section Sorting.

Context {A : Type} (key : A -> option Z).

Lemma insert_by_perm (x : A) (l : list A) :
  Permutation (EE.insert_by key x l) (x :: l).
Proof.
  induction l as [|y l IH]; simpl; [reflexivity|].
  destruct (EE.time_leb (key x) (key y)); [reflexivity|].
  rewrite IH. apply perm_swap.
Qed.

Lemma sort_by_perm (l : list A) : Permutation (EE.sort_by key l) l.
Proof.
  induction l as [|x l IH]; simpl; [reflexivity|].
  unfold EE.sort_by in *. simpl.
  rewrite insert_by_perm. now constructor.
Qed.

Lemma sort_by_length (l : list A) :
  List.length (EE.sort_by key l) = List.length l.
Proof. apply Permutation_length, sort_by_perm. Qed.

Lemma time_leb_trans (a b c : option Z) :
  EE.time_leb a b = true -> EE.time_leb b c = true -> EE.time_leb a c = true.
Proof.
  destruct a, b, c; simpl; try congruence; rewrite !Z.leb_le; lia.
Qed.

Lemma time_leb_total (a b : option Z) :
  EE.time_leb a b = false -> EE.time_leb b a = true.
Proof.
  destruct a, b; simpl; try congruence.
  rewrite Z.leb_gt, Z.leb_le. lia.
Qed.

Lemma insert_by_sorted (x : A) (l : list A) :
  StronglySorted (EE.key_le key) l ->
  StronglySorted (EE.key_le key) (EE.insert_by key x l).
Proof.
  induction 1 as [|y l Hs IH Hy]; simpl.
  - repeat constructor.
  - destruct (EE.time_leb (key x) (key y)) eqn:Hxy.
    + constructor; [now constructor|].
      constructor; [exact Hxy|].
      eapply Forall_impl; [|exact Hy].
      intros z Hz. unfold EE.key_le in *. eapply time_leb_trans; eauto.
    + constructor; [exact IH|].
      eapply Permutation_Forall; [symmetry; apply insert_by_perm|].
      constructor; [|exact Hy].
      apply time_leb_total, Hxy.
Qed.

Lemma sort_by_sorted (l : list A) :
  StronglySorted (EE.key_le key) (EE.sort_by key l).
Proof.
  induction l as [|x l IH]; [constructor|].
  apply insert_by_sorted, IH.
Qed.

End Sorting.

Lemma insert_by_map {A B : Type} (kA : A -> option Z) (kB : B -> option Z)
    (h : A -> B) (x : A) (l : list A) :
  (forall a, kB (h a) = kA a) ->
  map h (EE.insert_by kA x l) = EE.insert_by kB (h x) (map h l).
Proof.
  intros Hk.
  induction l as [|y l IH]; simpl; [reflexivity|].
  rewrite !Hk.
  destruct (EE.time_leb (kA x) (kA y)); simpl; [reflexivity|].
  now rewrite IH.
Qed.

Lemma sort_by_map {A B : Type} (kA : A -> option Z) (kB : B -> option Z)
    (h : A -> B) (l : list A) :
  (forall a, kB (h a) = kA a) ->
  map h (EE.sort_by kA l) = EE.sort_by kB (map h l).
Proof.
  intros Hk.
  induction l as [|x l IH]; simpl; [reflexivity|].
  unfold EE.sort_by in *. simpl.
  now rewrite (insert_by_map kA kB h), IH.
Qed.

(** ** The cloud mask and the index, scene by scene *)

Lemma land_bit (a n : N) :
  N.eqb (N.land a (N.shiftl 1 n)) 0 = negb (N.testbit a n).
Proof.
  rewrite N.shiftl_1_l.
  destruct (N.testbit a n) eqn:Hb; simpl.
  - apply N.eqb_neq. intros H0.
    assert (Hn : N.testbit (N.land a (2 ^ n)) n = false) by (rewrite H0; apply N.bits_0).
    rewrite N.land_spec, Hb, N.pow2_bits_true in Hn. discriminate.
  - apply N.eqb_eq. apply N.bits_inj. intros m.
    rewrite N.land_spec, N.bits_0, N.pow2_bits_eqb.
    destruct (N.eqb_spec n m) as [->|_]; [now rewrite Hb|apply andb_false_r].
Qed.

Lemma mask_pixel (qa : N) :
  (if
    ((if N.land qa App.cloudBitMask =? 0 then 1 else 0) =? 0)%N
    || ((if N.land qa App.cirrusBitMask =? 0 then 1 else 0) =? 0)%N
   then 0%N
   else 1%N) =
  (if Spec.usable qa then 1%N else 0%N).
Proof.
  unfold App.cloudBitMask, App.cirrusBitMask, Spec.usable.
  rewrite !land_bit.
  now destruct (N.testbit qa 10), (N.testbit qa 11).
Qed.

Lemma scene_ndvi (p : EE.Coords) (s : App.S2Scene) :
  exists img,
    (m <- App.maskS2clouds (App.S2_image s) ;; App.ndvi m) = Some img
    /\ Derived.ndvi_image_of p s img.
Proof.
  eexists. split; [reflexivity|].
  eexists. split; [reflexivity|].
  cbv beta. unfold EE.lift2, EE.lift1, Spec.ndvi_at. simpl.
  destruct (App.QA60 s p) as [qa|]; simpl; [|reflexivity].
  rewrite mask_pixel.
  destruct (Spec.usable qa); simpl; [|reflexivity].
  destruct (App.B8 s p), (App.B4 s p); reflexivity.
Qed.

Lemma s2_chart_filtered_selected (w : App.World) (c : EE.Coords) :
  App.s2_chart_filtered w c = map App.S2_image (Spec.selected w (App.point c)).
Proof.
  unfold App.s2_chart_filtered, App.S2_collection, Spec.selected.
  unfold EE.filter_lt_CLOUDY_PIXEL_PERCENTAGE, EE.filterDate, EE.filterBounds.
  now rewrite !filter_map_comm.
Qed.

Lemma s2_ndvi_selected (w : App.World) (c : EE.Coords) :
  exists col,
    App.s2_ndvi w c = Some col
    /\ Forall2 (Derived.ndvi_image_of (App.point c))
         (Spec.selected w (App.point c)) col.
Proof.
  unfold App.s2_ndvi, App.s2_chart.
  rewrite s2_chart_filtered_selected, mapM_map.
  rewrite (mapM_bind (fun x => App.maskS2clouds (App.S2_image x)) App.ndvi).
  apply mapM_total. intros s. apply scene_ndvi.
Qed.

Lemma select_row (names : list string) (p : EE.Coords) (img y : EE.Image Q) :
  EE.select names img = Some y -> UI.row p y = Derived.selected_row names p img.
Proof.
  unfold EE.select, UI.row, Derived.selected_row.
  destruct (mapM _ names) as [bs|] eqn:Hbs; simpl; [|discriminate].
  intros [= <-]. simpl. f_equal.
  unfold EE.reduceRegion. simpl.
  eapply mapM_Some_map; [exact Hbs|].
  intros n b _. simpl.
  destruct (EE.lookup n (EE.bands img)); simpl; [|discriminate].
  now intros [= <-].
Qed.

Lemma select_succeeds (names : list string) (img : EE.Image Q) :
  Forall (fun n => EE.lookup n (EE.bands img) <> None) names ->
  EE.select names img <> None.
Proof.
  intros HF. unfold EE.select.
  destruct (mapM_succeeds (fun n => r <- EE.lookup n (EE.bands img) ;; Some (n, r)) names) as [bs Hbs].
  - eapply Forall_impl; [|exact HF].
    intros n. simpl. destruct (EE.lookup n (EE.bands img)); simpl; congruence.
  - rewrite Hbs. discriminate.
Qed.

Lemma select_rows (names : list string) (p : EE.Coords)
    (col : list (EE.Image Q)) :
  Forall (fun img => Forall (fun n => EE.lookup n (EE.bands img) <> None) names) col ->
  option_map (map (UI.row p)) (mapM (EE.select names) col)
  = Some (map (Derived.selected_row names p) col).
Proof.
  intros HF.
  destruct (mapM_succeeds (EE.select names) col) as [col' Hcol].
  - eapply Forall_impl; [|exact HF]. intros img. apply select_succeeds.
  - rewrite Hcol. simpl. f_equal.
    eapply mapM_Some_map; [exact Hcol|].
    intros img y _. apply select_row.
Qed.

Ltac split_pos p n :=
  match n with
  | O => idtac
  | S ?n' => destruct p as [p|p|]; [split_pos p n'|split_pos p n'|idtac]
  end.

Ltac small_Z z :=
  destruct z as [|z|z]; [|split_pos z 3%nat|]; try reflexivity.

Lemma status_decision_table (result : EE.Dictionary Z) :
  App.status result
  = (Spec.label (fst (Spec.decision_table (App.cornVal result) (App.frostVal result))),
     Spec.token (snd (Spec.decision_table (App.cornVal result) (App.frostVal result)))).
Proof.
  unfold App.status, App.isCorn.
  destruct (App.cornVal result) as [cv|]; [|reflexivity].
  small_Z cv.
  destruct (App.frostVal result) as [fv|]; [|reflexivity].
  small_Z fv.
Qed.

Lemma isFrostEvent_category (result : EE.Dictionary Z) :
  App.isFrostEvent result = Spec.is_frost_event (Spec.category result).
Proof.
  unfold App.isFrostEvent, App.isCorn, Spec.category.
  destruct (App.cornVal result) as [cv|]; [|reflexivity].
  small_Z cv.
  destruct (App.frostVal result) as [fv|]; [|reflexivity].
  small_Z fv.
Qed.

Lemma t1_event_time (result : EE.Dictionary Z) :
  App.isFrostEvent result = true ->
  Spec.event_time (Spec.category result) = Some (App.t1 result).
Proof.
  unfold App.isFrostEvent, App.isCorn, Spec.category, App.t1, App.d.
  destruct (App.cornVal result) as [cv|]; [|discriminate].
  small_Z cv; try discriminate.
  destruct (App.frostVal result) as [fv|]; [|discriminate].
  small_Z fv; discriminate.
Qed.

Lemma t2_t1 (result : EE.Dictionary Z) :
  App.t2 result = App.t1 result + 3600000.
Proof.
  unfold App.t2, App.t1. destruct (App.d result) as [[y m] dd].
  reflexivity.
Qed.

Lemma markers_category (result : EE.Dictionary Z) :
  App.isFrostEvent result = true ->
  Spec.markers (Spec.category result)
  = [Spec.marker (App.t1 result) 0; Spec.marker (App.t2 result) 1].
Proof.
  intros H. unfold Spec.markers.
  now rewrite (t1_event_time result H), t2_t1.
Qed.

Lemma frostLineCol_rows (p : EE.Coords) (result : EE.Dictionary Z) :
  exists line,
    App.frostLineCol result = Some line
    /\ map (Derived.selected_row ["FrostMarker"; "NDVI"]%string p) line
       = [Spec.marker (App.t1 result) 0; Spec.marker (App.t2 result) 1]
    /\ Forall (Derived.has_bands ["FrostMarker"; "NDVI"]%string) line.
Proof.
  eexists. split; [reflexivity|]. split; [reflexivity|].
  repeat constructor; simpl; discriminate.
Qed.

Lemma addFrostMarker_marked (p : EE.Coords) (s : App.S2Scene) (img : EE.Image Q) :
  Derived.ndvi_image_of p s img ->
  exists img', App.addFrostMarker img = Some img' /\ Derived.marked_image_of p s img'.
Proof.
  intros [r [-> Hr]].
  eexists. split; [reflexivity|].
  exists r. eexists. split; [reflexivity|]. split; [exact Hr|reflexivity].
Qed.

Lemma marked_row (p : EE.Coords) (s : App.S2Scene) (img : EE.Image Q) :
  Derived.marked_image_of p s img ->
  Derived.selected_row ["FrostMarker"; "NDVI"]%string p img = Spec.real_obs_marked p s
  /\ Derived.has_bands ["FrostMarker"; "NDVI"]%string img.
Proof.
  intros [r [fm [-> [Hr Hfm]]]]. split.
  - unfold Derived.selected_row, Spec.real_obs_marked. simpl.
    now rewrite Hr, Hfm.
  - repeat constructor; simpl; discriminate.
Qed.

Lemma ndvi_row (p : EE.Coords) (s : App.S2Scene) (img : EE.Image Q) :
  Derived.ndvi_image_of p s img ->
  Derived.selected_row ["NDVI"%string] p img = Spec.real_obs p s
  /\ Derived.has_bands ["NDVI"%string] img.
Proof.
  intros [r [-> Hr]]. split.
  - unfold Derived.selected_row, Spec.real_obs. simpl. now rewrite Hr.
  - repeat constructor; simpl; discriminate.
Qed.

Lemma rows_chart (w : App.World) (c : EE.Coords) (result : EE.Dictionary Z) :
  UI.rows (App.chart w c result)
  = Some (Derived.series w (App.point c) (Spec.category result)).
Proof.
  unfold UI.rows, App.chart, Derived.series. simpl UI.region. simpl UI.imageCollection.
  unfold App.combinedCol, App.bandsToSelect.
  rewrite <- isFrostEvent_category.
  destruct (s2_ndvi_selected w c) as [col [Hcol HF]].
  destruct (App.isFrostEvent result) eqn:Hfrost.
  - destruct (frostLineCol_rows (App.point c) result) as [line [Hline [Hrows Hb]]].
    destruct (mapM_Forall2 _ (Derived.marked_image_of (App.point c)) App.addFrostMarker _ _ HF)
      as [col' [Hcol' HF']].
    { intros s img. apply addFrostMarker_marked. }
    rewrite Hline, Hcol. simpl. rewrite Hcol'. simpl.
    rewrite select_rows.
    + f_equal. unfold EE.sort, EE.merge.
      rewrite (sort_by_map EE.time_start UI.timestamp) by reflexivity.
      rewrite map_app, Hrows, (markers_category result Hfrost).
      f_equal. f_equal.
      eapply Forall2_map_eq; [exact HF'|].
      intros s img Hm. apply (marked_row _ _ _ Hm).
    + eapply Permutation_Forall; [symmetry; apply sort_by_perm|].
      apply Forall_app. split; [|exact Hb].
      eapply Forall2_Forall_r; [exact HF'|].
      intros s img Hm. apply (marked_row _ _ _ Hm).
  - rewrite Hcol. simpl.
    rewrite select_rows.
    + f_equal. eapply Forall2_map_eq; [exact HF|].
      intros s img Hm. apply (ndvi_row _ _ _ Hm).
    + eapply Forall2_Forall_r; [exact HF|].
      intros s img Hm. apply (ndvi_row _ _ _ Hm).
Qed.

(** ** A click, end to end *)

Lemma frost_result_sample (w : App.World) (c : EE.Coords) :
  App.frost_result w c = Some (Spec.sample w (App.point c)).
Proof. reflexivity. Qed.

Lemma shown_chart_click (w : App.World) (c : EE.Coords) (ui : UI.State) :
  App.shown_chart (App.click w c ui)
  = Some (App.chart w c (Spec.sample w (App.point c))).
Proof.
  unfold App.click, App.evaluated.
  now rewrite frost_result_sample.
Qed.

Lemma cornVal_sample (w : App.World) (p : EE.Coords) :
  App.cornVal (Spec.sample w p) = App.band0 (App.GEEadas_Corn_Forst_PR w) p.
Proof. reflexivity. Qed.

Lemma frostVal_sample (w : App.World) (p : EE.Coords) :
  App.frostVal (Spec.sample w p) = App.band1 (App.GEEadas_Corn_Forst_PR w) p.
Proof. reflexivity. Qed.

Lemma classification_chart (w : App.World) (c : EE.Coords)
    (result : EE.Dictionary Z) :
  Spec.classification (App.chart w c result)
  = (App.statusText result, [App.lineColor result]).
Proof.
  unfold Spec.classification, App.chart, App.seriesOptions. simpl.
  now destruct (App.isFrostEvent result).
Qed.

(** ** Filtering a sorted list *)

Lemma insert_by_head {A : Type} (key : A -> option Z) (x : A) (l : list A) :
  Forall (fun z => EE.time_leb (key x) (key z) = true) l ->
  EE.insert_by key x l = x :: l.
Proof.
  destruct 1 as [|y l Hy _]; simpl; [reflexivity|].
  now rewrite Hy.
Qed.

Lemma filter_insert_by {A : Type} (key : A -> option Z) (P : A -> bool)
    (x : A) (l : list A) :
  StronglySorted (EE.key_le key) l ->
  filter P (EE.insert_by key x l)
  = if P x then EE.insert_by key x (filter P l) else filter P l.
Proof.
  induction 1 as [|y l Hs IH Hy]; simpl.
  - now destruct (P x).
  - destruct (EE.time_leb (key x) (key y)) eqn:Hxy; simpl.
    + change (if P y then y :: filter P l else filter P l)
        with (filter P (y :: l)).
      destruct (P x); [|reflexivity].
      symmetry. apply insert_by_head.
      assert (Hall : Forall (fun z => EE.time_leb (key x) (key z) = true) (y :: l)).
      { constructor; [exact Hxy|].
        eapply Forall_impl; [|exact Hy].
        intros z Hz. eapply time_leb_trans; eauto. }
      apply Forall_forall. intros z Hz.
      apply filter_In in Hz as [Hz _].
      revert z Hz. now apply Forall_forall.
    + rewrite IH.
      destruct (P y), (P x); simpl; try reflexivity.
      now rewrite Hxy.
Qed.

Lemma filter_sort_by {A : Type} (key : A -> option Z) (P : A -> bool)
    (l : list A) :
  filter P (EE.sort_by key l) = EE.sort_by key (filter P l).
Proof.
  induction l as [|x l IH]; [reflexivity|].
  change (EE.sort_by key (x :: l)) with (EE.insert_by key x (EE.sort_by key l)).
  rewrite filter_insert_by by apply sort_by_sorted.
  simpl. destruct (P x); rewrite IH; reflexivity.
Qed.

Lemma sorted_chronological (l : list UI.Observation) :
  Forall (fun o => UI.timestamp o <> None) l ->
  StronglySorted (EE.key_le UI.timestamp) l ->
  Spec.chronological l.
Proof.
  intros Hsome Hs. unfold Spec.chronological.
  induction Hs as [|a l Hs IH Ha]; [constructor|].
  inversion Hsome as [|? ? Hta Hl]; subst.
  constructor; [now apply IH|].
  rewrite Forall_forall in *. intros b Hb.
  specialize (Ha b Hb). specialize (Hl b Hb). unfold EE.key_le in Ha.
  destruct (UI.timestamp a) as [x|]; [|congruence].
  destruct (UI.timestamp b) as [y|]; [|congruence].
  exists x, y. simpl in Ha. apply Z.leb_le in Ha. auto.
Qed.

Lemma markers_timestamps (c : Spec.Category) :
  Forall (fun o => UI.timestamp o <> None) (Spec.markers c).
Proof.
  unfold Spec.markers.
  destruct (Spec.event_time c); repeat constructor; discriminate.
Qed.

Lemma markers_synthetic (c : Spec.Category) :
  filter Spec.is_synthetic (Spec.markers c) = Spec.markers c.
Proof.
  unfold Spec.markers. now destruct (Spec.event_time c).
Qed.

Lemma markers_sorted (c : Spec.Category) :
  EE.sort_by UI.timestamp (Spec.markers c) = Spec.markers c.
Proof. now destruct c. Qed.

Lemma real_not_synthetic (p : EE.Coords) (l : list App.S2Scene) :
  filter Spec.is_synthetic (map (Spec.real_obs_marked p) l) = [].
Proof. induction l; simpl; auto. Qed.

Lemma real_unmarked_not_synthetic (p : EE.Coords) (l : list App.S2Scene) :
  filter Spec.is_synthetic (map (Spec.real_obs p) l) = [].
Proof. induction l; simpl; auto. Qed.

Lemma non_frost_markers (c : Spec.Category) :
  Spec.is_frost_event c = false -> Spec.markers c = [].
Proof. now destruct c. Qed.

Lemma series_synthetic (w : App.World) (p : EE.Coords) (c : Spec.Category) :
  filter Spec.is_synthetic (Derived.series w p c) = Spec.markers c.
Proof.
  unfold Derived.series.
  destruct (Spec.is_frost_event c) eqn:Hc.
  - rewrite filter_sort_by, filter_app, real_not_synthetic, markers_synthetic.
    apply markers_sorted.
  - now rewrite real_unmarked_not_synthetic, non_frost_markers.
Qed.

(** ** The assembled series *)

Lemma series_click (w : App.World) (c : EE.Coords) (ui : UI.State) :
  exists ch,
    App.shown_chart (App.click w c ui) = Some ch
    /\ UI.rows ch
       = Some (Derived.series w (App.point c)
                 (Spec.category (Spec.sample w (App.point c))))
    /\ Spec.classification ch
       = (App.statusText (Spec.sample w (App.point c)),
          [App.lineColor (Spec.sample w (App.point c))]).
Proof.
  eexists. split; [apply shown_chart_click|].
  split; [apply rows_chart|apply classification_chart].
Qed.

Lemma real_marked_timestamps (p : EE.Coords) (l : list App.S2Scene) :
  Forall (fun o => UI.timestamp o <> None) (map (Spec.real_obs_marked p) l).
Proof.
  apply Forall_forall. intros o Ho.
  apply in_map_iff in Ho as [s [<- _]]. discriminate.
Qed.

(** C1, as the code has it: for a frost-event pixel the charted series is in
    non-decreasing order of timestamp, whatever the order of the archive, and
    is a rearrangement of the real observations (one per scene that passes
    the bounds, date and scene-cloud filters, each with its index and an
    absent marker) together with the synthetic marker observations.  For any
    other pixel no sort is applied: the series is the real observations in
    the order of the archive. *)
Theorem C1_series_order (w : App.World) (c : EE.Coords) (ui : UI.State) :
  exists ch series,
    App.shown_chart (App.click w c ui) = Some ch
    /\ UI.rows ch = Some series
    /\ (if Spec.is_frost_event (Spec.category (Spec.sample w (App.point c)))
        then
          Spec.chronological series
          /\ Permutation series
               (map (Spec.real_obs_marked (App.point c))
                  (Spec.selected w (App.point c))
                ++ Spec.markers (Spec.category (Spec.sample w (App.point c))))
        else
          series
          = map (Spec.real_obs (App.point c)) (Spec.selected w (App.point c))).
Proof.
  destruct (series_click w c ui) as [ch [Hch [Hrows _]]].
  exists ch. eexists. split; [exact Hch|]. split; [exact Hrows|].
  unfold Derived.series.
  destruct (Spec.is_frost_event _); [|reflexivity].
  split.
  - apply sorted_chronological; [|apply sort_by_sorted].
    eapply Permutation_Forall; [symmetry; apply sort_by_perm|].
    apply Forall_app. split.
    + apply real_marked_timestamps.
    + apply markers_timestamps.
  - apply sort_by_perm.
Qed.

(** C1, as the claim states it, fails for a pixel that is not a frost event:
    with an archive that lists the scene of March 16 before the scene of
    January 1, the charted series keeps that order. *)
Lemma C1_non_frost_unsorted :
  option_map UI.rows
    (App.shown_chart
       (App.click Examples.harvested_world Examples.p0 Examples.ui0))
  = Some (Some [Spec.real_obs Examples.p0 Examples.mar16;
                Spec.real_obs Examples.p0 Examples.jan01])
  /\ ~ Spec.chronological [Spec.real_obs Examples.p0 Examples.mar16;
                           Spec.real_obs Examples.p0 Examples.jan01].
Proof.
  split.
  - vm_compute. reflexivity.
  - intros H. inversion H as [|a l _ Hall]; subst.
    inversion Hall as [|b l' [x [y [Hx [Hy Hle]]]] _]; subst.
    simpl in Hx, Hy. injection Hx as <-. injection Hy as <-.
    vm_compute in Hle. now apply Hle.
Qed.


Lemma markers_channels (c : Spec.Category) :
  Forall (fun o => map fst (UI.channels o) = ["FrostMarker"; "NDVI"]%string)
    (Spec.markers c).
Proof.
  unfold Spec.markers.
  destruct (Spec.event_time c); repeat constructor.
Qed.

Lemma addFrostMarker_bands (p : EE.Coords) (s : App.S2Scene)
    (img : EE.Image Q) :
  Derived.marked_image_of p s img ->
  EE.bandNames img = ["NDVI"; "FrostMarker"]%string
  /\ forall q, EE.lookup "FrostMarker" (EE.reduceRegion img q) = Some None.
Proof.
  intros [r [fm [-> [_ Hfm]]]]. split; [reflexivity|].
  intros q. simpl. now rewrite Hfm.
Qed.

(** C4: for a frost-event pixel the selected bands are the marker and the
    index, every real image is given a marker band that is masked everywhere
    before the merge, and every charted observation has exactly the channels
    marker and index; for any other pixel the only selected band is the
    index and every charted observation has exactly that channel. *)
Theorem C4_channels (w : App.World) (c : EE.Coords) (ui : UI.State) :
  exists ch series,
    App.shown_chart (App.click w c ui) = Some ch
    /\ UI.rows ch = Some series
    /\ (if Spec.is_frost_event (Spec.category (Spec.sample w (App.point c)))
        then
          App.bandsToSelect (Spec.sample w (App.point c))
          = ["FrostMarker"; "NDVI"]%string
          /\ Forall (fun o => map fst (UI.channels o)
                              = ["FrostMarker"; "NDVI"]%string) series
          /\ Forall (fun s => In (Spec.real_obs_marked (App.point c) s) series)
               (Spec.selected w (App.point c))
          /\ exists col col',
               App.s2_ndvi w c = Some col
               /\ mapM App.addFrostMarker col = Some col'
               /\ Forall (fun img =>
                            EE.bandNames img = ["NDVI"; "FrostMarker"]%string
                            /\ forall q,
                                 EE.lookup "FrostMarker" (EE.reduceRegion img q)
                                 = Some None) col'
        else
          App.bandsToSelect (Spec.sample w (App.point c)) = ["NDVI"%string]
          /\ Forall (fun o => map fst (UI.channels o) = ["NDVI"%string]) series).
Proof.
  destruct (series_click w c ui) as [ch [Hch [Hrows _]]].
  exists ch. eexists. split; [exact Hch|]. split; [exact Hrows|].
  unfold Derived.series, App.bandsToSelect.
  rewrite isFrostEvent_category.
  destruct (Spec.is_frost_event _).
  - split; [reflexivity|]. split; [|split].
    + eapply Permutation_Forall; [symmetry; apply sort_by_perm|].
      apply Forall_app. split; [|apply markers_channels].
      apply Forall_forall. intros o Ho.
      apply in_map_iff in Ho as [s [<- _]]. reflexivity.
    + apply Forall_forall. intros s Hs.
      eapply Permutation_in; [symmetry; apply sort_by_perm|].
      apply in_or_app. left. now apply in_map.
    + destruct (s2_ndvi_selected w c) as [col [Hcol HF]].
      destruct (mapM_Forall2 _ (Derived.marked_image_of (App.point c))
                  App.addFrostMarker _ _ HF) as [col' [Hcol' HF']].
      { intros s img. apply addFrostMarker_marked. }
      exists col, col'. split; [exact Hcol|]. split; [exact Hcol'|].
      eapply Forall2_Forall_r; [exact HF'|].
      intros s img. apply addFrostMarker_bands.
  - split; [reflexivity|].
    apply Forall_forall. intros o Ho.
    apply in_map_iff in Ho as [s [<- _]]. reflexivity.
Qed.

(** ** The cloud mask *)

Lemma usable_bits (qa : N) :
  Spec.usable qa = true
  <-> N.testbit qa 10 = false /\ N.testbit qa 11 = false.
Proof.
  unfold Spec.usable.
  destruct (N.testbit qa 10), (N.testbit qa 11); simpl; intuition congruence.
Qed.

(** C5: where a scene carries a quality value, the mask computed by
    [maskS2clouds] is 1 if bits 10 and 11 of that value are both clear and 0
    otherwise; the image it returns keeps the scene's timestamp and, at that
    pixel, holds every band divided by 10000 when the mask is 1 and no value
    when it is 0. *)
Theorem C5_cloud_mask (s : App.S2Scene) (p : EE.Coords) (qa : N)
    (Hqa : App.QA60 s p = Some qa) :
  (Spec.usable qa = true
   <-> N.testbit qa 10 = false /\ N.testbit qa 11 = false)
  /\ exists m img,
       App.cloud_mask (App.S2_image s) = Some m
       /\ EE.reduceRegion m p
          = [("QA60"%string, Some (if Spec.usable qa then 1%N else 0%N))]
       /\ App.maskS2clouds (App.S2_image s) = Some img
       /\ EE.time_start img = Some (App.scene_time_start s)
       /\ EE.reduceRegion img p
          = map (fun b =>
                   (fst b,
                    if Spec.usable qa
                    then option_map (fun v => (inject_Z (Z.of_N v) / 10000)%Q)
                           (snd b p)
                    else None))
              (EE.bands (App.S2_image s)).
Proof.
  split; [apply usable_bits|].
  eexists. eexists.
  split; [reflexivity|]. split.
  - unfold EE.reduceRegion. simpl. unfold EE.lift2, EE.lift1.
    rewrite Hqa. simpl. now rewrite mask_pixel.
  - split; [reflexivity|]. split; [reflexivity|].
    unfold EE.reduceRegion. simpl. unfold EE.lift2, EE.lift1.
    rewrite Hqa. simpl. rewrite mask_pixel.
    destruct (Spec.usable qa); reflexivity.
Qed.

Lemma C5_cloud_mask_witness :
  App.QA60 Examples.cloudy Examples.p0 = Some 1024%N
  /\ Spec.usable 1024 = false
  /\ exists m img,
       App.cloud_mask (App.S2_image Examples.cloudy) = Some m
       /\ EE.reduceRegion m Examples.p0 = [("QA60"%string, Some 0%N)]
       /\ App.maskS2clouds (App.S2_image Examples.cloudy) = Some img
       /\ EE.reduceRegion img Examples.p0
          = [("B2", None); ("B3", None); ("B4", None); ("B8", None);
             ("B11", None); ("QA60", None)]%string.
Proof.
  split; [reflexivity|]. split; [reflexivity|].
  destruct (C5_cloud_mask Examples.cloudy Examples.p0 1024 eq_refl)
    as [_ [m [img [Hm [Hmp [Hi [_ Hip]]]]]]].
  exists m, img. repeat split; assumption.
Defined.

(** ** Real observations in the series *)

(** The observation a selected scene contributes to the series. *)
Lemma scene_observed (w : App.World) (p : EE.Coords) (c : Spec.Category)
    (s : App.S2Scene) :
  In s (Spec.selected w p) ->
  exists o,
    In o (Derived.series w p c)
    /\ UI.timestamp o = Some (App.scene_time_start s)
    /\ EE.lookup "NDVI" (UI.channels o) = Some (Spec.ndvi_at s p).
Proof.
  intros Hs. unfold Derived.series.
  destruct (Spec.is_frost_event c).
  - exists (Spec.real_obs_marked p s). split; [|split; reflexivity].
    eapply Permutation_in; [symmetry; apply sort_by_perm|].
    apply in_or_app. left. now apply in_map.
  - exists (Spec.real_obs p s). split; [|split; reflexivity].
    now apply in_map.
Qed.

Lemma series_length (w : App.World) (p : EE.Coords) (c : Spec.Category) :
  List.length (Derived.series w p c)
  = (List.length (Spec.selected w p) + List.length (Spec.markers c))%nat.
Proof.
  unfold Derived.series.
  destruct (Spec.is_frost_event c) eqn:Hc.
  - now rewrite sort_by_length, length_app, length_map.
  - rewrite length_map, non_frost_markers by exact Hc. simpl. lia.
Qed.

(** C6: a selected scene whose pixel is usable and has both reflectances is
    charted at its own timestamp; its index is the normalized difference of
    the scaled reflectances, and it is absent, with the observation kept,
    when their sum is zero.  For reflectances 0.5 and 0.1 the index is 2/3. *)
Theorem C6_index (w : App.World) (c : EE.Coords) (ui : UI.State)
    (s : App.S2Scene) (qa nir red : N)
    (Hs : In s (Spec.selected w (App.point c)))
    (Hqa : App.QA60 s (App.point c) = Some qa)
    (Husable : Spec.usable qa = true)
    (Hnir : App.B8 s (App.point c) = Some nir)
    (Hred : App.B4 s (App.point c) = Some red) :
  (exists ch series o,
     App.shown_chart (App.click w c ui) = Some ch
     /\ UI.rows ch = Some series
     /\ In o series
     /\ UI.timestamp o = Some (App.scene_time_start s)
     /\ EE.lookup "NDVI" (UI.channels o)
        = Some (if Qeq_bool (Spec.scale nir + Spec.scale red) 0
                then None
                else Some ((Spec.scale nir - Spec.scale red)
                           / (Spec.scale nir + Spec.scale red))%Q))
  /\ (exists q, EE.nd_pixel (5 # 10) (1 # 10) = Some q /\ (q == 2 # 3)%Q)
  /\ EE.nd_pixel 0 0 = None.
Proof.
  split; [|split].
  - destruct (series_click w c ui) as [ch [Hch [Hrows _]]].
    destruct (scene_observed w (App.point c)
                (Spec.category (Spec.sample w (App.point c))) s Hs)
      as [o [Ho [Ht Hndvi]]].
    exists ch. eexists. exists o.
    split; [exact Hch|]. split; [exact Hrows|]. split; [exact Ho|].
    split; [exact Ht|].
    rewrite Hndvi. unfold Spec.ndvi_at.
    now rewrite Hqa, Husable, Hnir, Hred.
  - eexists. split; [reflexivity|]. reflexivity.
  - reflexivity.
Qed.

Lemma C6_index_witness :
  exists ch series o,
    App.shown_chart (App.click Examples.frost_world Examples.p0 Examples.ui0)
    = Some ch
    /\ UI.rows ch = Some series
    /\ In o series
    /\ UI.timestamp o = Some (EE.Date 2021 6 4)
    /\ EE.lookup "NDVI" (UI.channels o) = Some None.
Proof.
  destruct (C6_index Examples.frost_world Examples.p0 Examples.ui0
              Examples.dark 0 0 0) as [H _].
  - vm_compute. do 3 right. left. reflexivity.
  - reflexivity.
  - reflexivity.
  - reflexivity.
  - reflexivity.
  - exact H.
Defined.

(** The chart of the sample frost pixel: four real observations and the two
    marker observations of May 25, in time order. *)
Example frost_world_series :
  option_map UI.rows
    (App.shown_chart
       (App.click Examples.frost_world Examples.p0 Examples.ui0))
  = Some (Some [Spec.real_obs_marked Examples.p0 Examples.jan01;
                Spec.real_obs_marked Examples.p0 Examples.mar16;
                Spec.real_obs_marked Examples.p0 Examples.cloudy;
                Spec.marker (EE.Date 2021 5 25) 0;
                Spec.marker (EE.Date 2021 5 25 + 3600000) 1;
                Spec.real_obs_marked Examples.p0 Examples.dark]).
Proof. vm_compute. reflexivity. Qed.

(** The scene of March 16 in the sample data: reflectances 0.5 and 0.1. *)
Example mar16_index :
  exists q,
    Spec.ndvi_at Examples.mar16 Examples.p0 = Some q /\ (q == 2 # 3)%Q.
Proof. eexists. split; reflexivity. Qed.

(** C7, as the code has it: a scene that passes the scene-level filters but
    whose pixel fails the cloud-mask test stays in the series, at its own
    timestamp, with an absent index; the series has one observation per
    selected scene besides the synthetic ones. *)
Theorem C7_masked_kept (w : App.World) (c : EE.Coords) (ui : UI.State)
    (s : App.S2Scene) (qa : N)
    (Hs : In s (Spec.selected w (App.point c)))
    (Hqa : App.QA60 s (App.point c) = Some qa)
    (Hflagged : Spec.usable qa = false) :
  exists ch series o,
    App.shown_chart (App.click w c ui) = Some ch
    /\ UI.rows ch = Some series
    /\ List.length series
       = (List.length (Spec.selected w (App.point c))
          + List.length
              (Spec.markers (Spec.category (Spec.sample w (App.point c)))))%nat
    /\ In o series
    /\ UI.timestamp o = Some (App.scene_time_start s)
    /\ EE.lookup "NDVI" (UI.channels o) = Some None.
Proof.
  destruct (series_click w c ui) as [ch [Hch [Hrows _]]].
  destruct (scene_observed w (App.point c)
              (Spec.category (Spec.sample w (App.point c))) s Hs)
    as [o [Ho [Ht Hndvi]]].
  exists ch. eexists. exists o.
  split; [exact Hch|]. split; [exact Hrows|].
  split; [apply series_length|]. split; [exact Ho|]. split; [exact Ht|].
  rewrite Hndvi. unfold Spec.ndvi_at. now rewrite Hqa, Hflagged.
Qed.

Lemma C7_masked_kept_witness :
  exists ch series o,
    App.shown_chart (App.click Examples.frost_world Examples.p0 Examples.ui0)
    = Some ch
    /\ UI.rows ch = Some series
    /\ List.length series = 6%nat
    /\ In o series
    /\ UI.timestamp o = Some (EE.Date 2021 4 20)
    /\ EE.lookup "NDVI" (UI.channels o) = Some None.
Proof.
  apply (C7_masked_kept Examples.frost_world Examples.p0 Examples.ui0
           Examples.cloudy 1024).
  - vm_compute. do 2 right. left. reflexivity.
  - reflexivity.
  - reflexivity.
Defined.

(** C7, as the claim states it, fails: the only scene of the sample archive
    has its cloud bit set at the clicked pixel, and the charted series still
    has an observation for it, with an absent index. *)
Lemma C7_cloudy_scene_in_series :
  App.QA60 Examples.cloudy Examples.p0 = Some 1024%N
  /\ Spec.usable 1024 = false
  /\ option_map UI.rows
       (App.shown_chart
          (App.click Examples.cloudy_world Examples.p0 Examples.ui0))
     = Some (Some [UI.mkObservation (Some (EE.Date 2021 4 20))
                     [("NDVI"%string, None)]]).
Proof. repeat split; vm_compute; reflexivity. Qed.

(** ** The classifier *)

(** C2: the status and the line color of the chart a click produces are
    those of the decision table, applied to the values the crop-mask band and
    the frost-class band have at the clicked point. *)
Theorem C2_decision_table (w : App.World) (c : EE.Coords) (ui : UI.State) :
  exists ch,
    App.shown_chart (App.click w c ui) = Some ch
    /\ Spec.classification ch
       = (Spec.label
            (fst (Spec.decision_table
                    (App.band0 (App.GEEadas_Corn_Forst_PR w) (App.point c))
                    (App.band1 (App.GEEadas_Corn_Forst_PR w) (App.point c)))),
          [Spec.token
             (snd (Spec.decision_table
                     (App.band0 (App.GEEadas_Corn_Forst_PR w) (App.point c))
                     (App.band1 (App.GEEadas_Corn_Forst_PR w) (App.point c))))]).
Proof.
  destruct (series_click w c ui) as [ch [Hch [_ Hclass]]].
  exists ch. split; [exact Hch|].
  rewrite Hclass. unfold App.statusText, App.lineColor.
  now rewrite status_decision_table, cornVal_sample, frostVal_sample.
Qed.

(** C8, as the code has it: sampling where the classification raster has no
    data is not an error and produces no synthetic observation.  Where the
    crop-mask band has no value the point is reported as not-crop, in black;
    where only the frost-class band has no value it is reported as unknown,
    in gray, if the crop mask is 2, and as not-crop otherwise.  The report is
    unknown in gray exactly where the crop mask is 2 and the frost class has
    no value or a value outside 1..4, and nowhere else; an unknown point
    produces no synthetic observation. *)
Theorem C8_nodata (w : App.World) (c : EE.Coords) (ui : UI.State) :
  exists ch series,
    App.shown_chart (App.click w c ui) = Some ch
    /\ UI.rows ch = Some series
    /\ match App.band0 (App.GEEadas_Corn_Forst_PR w) (App.point c),
             App.band1 (App.GEEadas_Corn_Forst_PR w) (App.point c) with
       | None, _ =>
           Spec.classification ch
           = (Spec.label Spec.not_crop, [Spec.token Spec.black])
           /\ filter Spec.is_synthetic series = []
       | Some cropMask, None =>
           Spec.classification ch
           = (if cropMask =? 2
              then (Spec.label Spec.unknown, [Spec.token Spec.gray])
              else (Spec.label Spec.not_crop, [Spec.token Spec.black]))
           /\ filter Spec.is_synthetic series = []
       | Some cropMask, Some frostClass =>
           if (cropMask =? 2) && negb ((1 <=? frostClass) && (frostClass <=? 4))
           then
             Spec.classification ch
             = (Spec.label Spec.unknown, [Spec.token Spec.gray])
             /\ filter Spec.is_synthetic series = []
           else
             Spec.classification ch
             <> (Spec.label Spec.unknown, [Spec.token Spec.gray])
       end
    /\ (Spec.classification ch
        = (Spec.label Spec.unknown, [Spec.token Spec.gray])
        <-> App.band0 (App.GEEadas_Corn_Forst_PR w) (App.point c) = Some 2
            /\ match App.band1 (App.GEEadas_Corn_Forst_PR w) (App.point c) with
               | None => True
               | Some frostClass => ~ (1 <= frostClass <= 4)
               end)
    /\ (Spec.classification ch
        = (Spec.label Spec.unknown, [Spec.token Spec.gray]) ->
        filter Spec.is_synthetic series = []).
Proof.
  destruct (series_click w c ui) as [ch [Hch [Hrows Hclass]]].
  exists ch. eexists. split; [exact Hch|]. split; [exact Hrows|].
  rewrite Hclass, series_synthetic.
  unfold App.statusText, App.lineColor, Spec.category.
  rewrite status_decision_table, cornVal_sample, frostVal_sample.
  destruct (App.band0 _ _) as [cm|].
  2:{ split; [split; reflexivity|]. split; [|reflexivity].
      split; [discriminate|intros [H _]; discriminate H]. }
  assert (Hother : cm <> 2 ->
            Spec.decision_table (Some cm)
              (App.band1 (App.GEEadas_Corn_Forst_PR w) (App.point c))
            = (Spec.not_crop, Spec.black)).
  { intros Hcm. small_Z cm. contradiction. }
  destruct (Z.eq_dec cm 2) as [-> | Hcm].
  - destruct (App.band1 _ _) as [fc|].
    2:{ split; [split; reflexivity|]. split; [|reflexivity].
        split; [now split|reflexivity]. }
    assert (Hfc : (1 <= fc <= 4 /\ (fc = 1 \/ fc = 2 \/ fc = 3 \/ fc = 4))
                  \/ (~ (1 <= fc <= 4)
                      /\ Spec.decision_table (Some 2) (Some fc)
                         = (Spec.unknown, Spec.gray)
                      /\ (1 <=? fc) && (fc <=? 4) = false)).
    { destruct (Z_le_dec 1 fc) as [H1|H1], (Z_le_dec fc 4) as [H4|H4].
      - left. split; lia.
      - right. split; [lia|]. split; [small_Z fc; lia|].
        apply andb_false_iff. right. now apply Z.leb_gt, Z.lt_nge.
      - right. split; [lia|]. split; [small_Z fc; lia|].
        apply andb_false_iff. left. now apply Z.leb_gt, Z.lt_nge.
      - exfalso. lia. }
    destruct Hfc as [[Hin Hv]|[Hout [Htab Hb]]].
    + destruct Hv as [-> | [-> | [-> | ->]]]; cbn;
        (split; [discriminate|]; split;
         [split; [discriminate|intros [_ H]; now elim H]|discriminate]).
    + rewrite Htab, Hb. cbn.
      split; [split; reflexivity|]. split; [|reflexivity].
      split; [now split|reflexivity].
  - rewrite (Hother Hcm).
    assert (Hb : (cm =? 2) = false) by now apply Z.eqb_neq.
    rewrite Hb. cbn.
    assert (Hne : Some cm <> Some 2) by congruence.
    destruct (App.band1 _ _) as [fc|].
    + split; [discriminate|]. split; [|discriminate].
      split; [discriminate|intros [H _]; contradiction].
    + split; [split; reflexivity|]. split; [|discriminate].
      split; [discriminate|intros [H _]; contradiction].
Qed.

(** C8, as the claim states it, fails: at a point where both bands of the
    classification raster have no data the click reports not-crop in black,
    not unknown in gray. *)
Lemma C8_nodata_is_not_crop :
  App.frost_result Examples.nodata_world Examples.p0
  = Some [("Corn"%string, None); ("Frost"%string, None)]
  /\ option_map Spec.classification
       (App.shown_chart
          (App.click Examples.nodata_world Examples.p0 Examples.ui0))
     = Some ("No corn mask"%string, ["black"%string])
  /\ option_map Spec.classification
       (App.shown_chart
          (App.click Examples.nodata_world Examples.p0 Examples.ui0))
     <> Some ("Unknown Class"%string, ["gray"%string]).
Proof.
  split; [reflexivity|]. split; [reflexivity|].
  vm_compute. discriminate.
Qed.

(** ** Repeated requests *)

Lemma shown_chart_evaluated (w : App.World) (c : EE.Coords) (ui : UI.State) :
  App.shown_chart (App.evaluated w c ui)
  = Some (App.chart w c (Spec.sample w (App.point c))).
Proof.
  unfold App.evaluated.
  now rewrite frost_result_sample.
Qed.

(** C9: the chart a request produces, with its series and its
    classification, depends on the clicked point, the archive and the raster
    only.  Whatever the state of the maps and of the panel when the sample is
    delivered, the same chart is shown; in particular a second click on the
    same point, after any sequence of events, shows the chart of the first. *)
Theorem C9_deterministic (w : App.World) (c : EE.Coords) :
  exists ch series,
    (forall ui, App.shown_chart (App.step w ui (App.Evaluated c)) = Some ch)
    /\ (forall ui es,
          App.shown_chart (App.click w c ui) = Some ch
          /\ App.shown_chart
               (App.click w c (App.run w (App.click w c ui) es)) = Some ch)
    /\ UI.rows ch = Some series
    /\ Spec.classification ch
       = (App.statusText (Spec.sample w (App.point c)),
          [App.lineColor (Spec.sample w (App.point c))]).
Proof.
  exists (App.chart w c (Spec.sample w (App.point c))).
  eexists. split; [|split; [|split]].
  - intros ui. apply shown_chart_evaluated.
  - intros ui es. now rewrite !shown_chart_click.
  - apply rows_chart.
  - apply classification_chart.
Qed.

(** ** The layers of the maps *)

Lemma set_at_length {A : Type} (x : A) (l : list A) :
  UI.set (List.length l) x l = l ++ [x].
Proof.
  induction l as [|y l IH]; simpl; [reflexivity|].
  now rewrite IH.
Qed.

Lemma showTimeSeries_layers (c : EE.Coords) (ui : UI.State) :
  UI.leftMap (App.showTimeSeries c ui) = UI.leftMap ui ++ [App.dotLeft c]
  /\ UI.rightMap (App.showTimeSeries c ui) = UI.rightMap ui ++ [App.dotRight c].
Proof.
  unfold App.showTimeSeries. simpl.
  now rewrite !set_at_length.
Qed.

Lemma chart_onClick_layers (w : App.World) (c : EE.Coords) (x : option Z)
    (ui : UI.State) :
  UI.leftMap (App.chart_onClick w c x ui) = UI.leftMap ui
  /\ exists l1 l2,
       UI.rightMap (App.chart_onClick w c x ui)
       = UI.rightMap ui ++ (if Spec.accepted x then [l1; l2] else []).
Proof.
  unfold App.chart_onClick, Spec.accepted.
  destruct x as [x|].
  2:{ split; [reflexivity|].
      exists (App.dotLeft c), (App.dotLeft c). now rewrite app_nil_r. }
  destruct (x =? 0).
  { split; [reflexivity|].
    exists (App.dotLeft c), (App.dotLeft c). now rewrite app_nil_r. }
  unfold UI.toISOString_date.
  rewrite (Z.leb_antisym _ (Z.abs x)), <- Z.gtb_ltb.
  destruct (Z.abs x >? 8640000000000000); cbn [negb andb].
  - split; [reflexivity|].
    exists (App.dotLeft c), (App.dotLeft c). now rewrite app_nil_r.
  - destruct (EE.civil_from_days _) as [[y m] d]. cbn [UI.leftMap UI.rightMap].
    split; [reflexivity|].
    unfold UI.addLayer. rewrite <- app_assoc.
    eexists. eexists. reflexivity.
Qed.

Lemma step_layers (w : App.World) (ui : UI.State) (e : App.Event) :
  exists newL newR,
    UI.leftMap (App.step w ui e) = UI.leftMap ui ++ newL
    /\ UI.rightMap (App.step w ui e) = UI.rightMap ui ++ newR.
Proof.
  destruct e as [c|c|c x|]; simpl.
  - destruct (showTimeSeries_layers c ui) as [HL HR]. eauto.
  - exists [], []. rewrite !app_nil_r. unfold App.evaluated.
    now destruct (App.frost_result w c).
  - destruct (chart_onClick_layers w c x ui) as [HL [l1 [l2 HR]]].
    exists []. eexists. rewrite app_nil_r. eauto.
  - exists [], []. now rewrite !app_nil_r.
Qed.

Lemma run_layers (w : App.World) (es : list App.Event) (ui : UI.State) :
  exists newL newR,
    UI.leftMap (App.run w ui es) = UI.leftMap ui ++ newL
    /\ UI.rightMap (App.run w ui es) = UI.rightMap ui ++ newR.
Proof.
  revert ui.
  induction es as [|e es IH]; intros ui; simpl.
  - exists [], []. now rewrite !app_nil_r.
  - destruct (step_layers w ui e) as [a [b [Ha Hb]]].
    destruct (IH (App.step w ui e)) as [a' [b' [Ha' Hb']]].
    exists (a ++ a'), (b ++ b').
    unfold App.run in *. rewrite Ha', Hb', Ha, Hb.
    now rewrite !app_assoc.
Qed.

Lemma chart_onClick_right (w : App.World) (c : EE.Coords) (x : option Z)
    (ui : UI.State) :
  match x with
  | Some t =>
      if Spec.accepted (Some t)
      then
        exists s,
          UI.toISOString_date t = Some s
          /\ UI.rightMap (App.chart_onClick w c (Some t) ui)
             = UI.rightMap ui
               ++ [UI.mkLayer
                     (UI.ImageObject
                        (EE.first
                           (EE.filterDate t (t + 86400000)
                              (EE.filterBounds (App.point c)
                                 (App.S2_collection w)))))
                     App.rgbVis ("Clicked Date RGB (" ++ s ++ ")") true;
                   UI.mkLayer
                     (UI.ImageObject
                        (EE.first
                           (EE.filterDate t (t + 86400000)
                              (EE.filterBounds (App.point c)
                                 (App.S2_collection w)))))
                     App.falseVis ("Clicked Date False Color (" ++ s ++ ")")
                     true]
      else UI.rightMap (App.chart_onClick w c (Some t) ui) = UI.rightMap ui
  | None => UI.rightMap (App.chart_onClick w c None ui) = UI.rightMap ui
  end.
Proof.
  destruct x as [t|]; [|reflexivity].
  unfold App.chart_onClick, Spec.accepted.
  destruct (t =? 0); [reflexivity|]. cbn [negb andb].
  unfold UI.toISOString_date.
  rewrite (Z.leb_antisym _ (Z.abs t)), <- Z.gtb_ltb.
  destruct (Z.abs t >? 8640000000000000); cbn [negb]; [reflexivity|].
  destruct (EE.civil_from_days _) as [[y m] d].
  eexists. split; [reflexivity|].
  cbn [UI.rightMap]. unfold UI.addLayer.
  rewrite <- app_assoc. reflexivity.
Qed.

(** C10, as the code has it: a map click appends one 'Clicked Point' layer
    to each map, at the index equal to the layer count before the click; a
    timeline click leaves the left map alone; when its x value is a non-zero
    time in the range of a Date it appends to the right map two shown image
    layers, a true-color and a false-color rendering of the first scene that
    covers the point within the day starting at that time, both named after
    the date; when the value is null, zero or out of range the right map is
    unchanged; whatever the events, the layers a map had stay in place, in
    order, at the bottom of its list. *)
Theorem C10_layers_grow (w : App.World) (c : EE.Coords) (x : option Z)
    (es : list App.Event) (ui : UI.State) :
  (UI.leftMap (App.showTimeSeries c ui) = UI.leftMap ui ++ [App.dotLeft c]
   /\ UI.rightMap (App.showTimeSeries c ui) = UI.rightMap ui ++ [App.dotRight c]
   /\ nth_error (UI.leftMap (App.showTimeSeries c ui))
        (List.length (UI.leftMap ui)) = Some (App.dotLeft c)
   /\ nth_error (UI.rightMap (App.showTimeSeries c ui))
        (List.length (UI.rightMap ui)) = Some (App.dotRight c)
   /\ UI.layer_name (App.dotLeft c) = "Clicked Point"%string
   /\ UI.layer_name (App.dotRight c) = "Clicked Point"%string)
  /\ (UI.leftMap (App.chart_onClick w c x ui) = UI.leftMap ui
      /\ match x with
         | Some t =>
             if Spec.accepted (Some t)
             then
               exists s,
                 UI.toISOString_date t = Some s
                 /\ UI.rightMap (App.chart_onClick w c (Some t) ui)
                    = UI.rightMap ui
                      ++ [UI.mkLayer
                            (UI.ImageObject
                               (EE.first
                                  (EE.filterDate t (t + 86400000)
                                     (EE.filterBounds (App.point c)
                                        (App.S2_collection w)))))
                            App.rgbVis
                            ("Clicked Date RGB (" ++ s ++ ")") true;
                          UI.mkLayer
                            (UI.ImageObject
                               (EE.first
                                  (EE.filterDate t (t + 86400000)
                                     (EE.filterBounds (App.point c)
                                        (App.S2_collection w)))))
                            App.falseVis
                            ("Clicked Date False Color (" ++ s ++ ")") true]
             else
               UI.rightMap (App.chart_onClick w c (Some t) ui)
               = UI.rightMap ui
         | None =>
             UI.rightMap (App.chart_onClick w c None ui) = UI.rightMap ui
         end)
  /\ (exists newL newR,
        UI.leftMap (App.run w ui es) = UI.leftMap ui ++ newL
        /\ UI.rightMap (App.run w ui es) = UI.rightMap ui ++ newR).
Proof.
  destruct (showTimeSeries_layers c ui) as [HL HR].
  split; [|split].
  - rewrite HL, HR. repeat split.
    + rewrite nth_error_app2, Nat.sub_diag by lia. reflexivity.
    + rewrite nth_error_app2, Nat.sub_diag by lia. reflexivity.
  - split; [apply chart_onClick_layers|apply chart_onClick_right].
  - apply run_layers.
Qed.

(** C10, as the claim states it, fails for a timeline click that carries no
    x value: the handler returns at once and the right map keeps the layers
    it had. *)
Lemma C10_null_click_adds_nothing :
  UI.rightMap
    (App.chart_onClick Examples.frost_world Examples.p0 None
       (App.click Examples.frost_world Examples.p0 Examples.ui0))
  = [App.dotRight Examples.p0]
  /\ List.length
       (UI.rightMap
          (App.chart_onClick Examples.frost_world Examples.p0 None
             (App.click Examples.frost_world Examples.p0 Examples.ui0)))
     <> (List.length
           (UI.rightMap
              (App.click Examples.frost_world Examples.p0 Examples.ui0)) + 2)%nat.
Proof.
  split; [reflexivity|].
  vm_compute. discriminate.
Qed.

(** * Further properties *)

Lemma all_from_spec (n : nat) (z : Z) (P : Z -> bool) :
  Calendar.all_from n z P = true ->
  forall k, z <= k < z + Z.of_nat n -> P k = true.
Proof.
  revert z.
  induction n as [|n IH]; intros z H k Hk; [lia|].
  simpl in H. apply andb_prop in H as [Hz Hrest].
  destruct (Z.eq_dec k z) as [->|Hne]; [exact Hz|].
  apply (IH (z + 1) Hrest). lia.
Qed.

Lemma years_checked : Calendar.all_from 400 0 Calendar.year_ok = true.
Proof. vm_compute. reflexivity. Qed.

Lemma doys_checked : Calendar.all_from 366 0 Calendar.doy_ok = true.
Proof. vm_compute. reflexivity. Qed.

Lemma mds_checked :
  Calendar.all_from 12 1
    (fun m => Calendar.all_from 31 1 (Calendar.md_ok m)) = true.
Proof. vm_compute. reflexivity. Qed.

Lemma year_ok_all (y : Z) : 0 <= y < 400 -> Calendar.year_ok y = true.
Proof. intros H. apply (all_from_spec 400 0 _ years_checked). lia. Qed.

Lemma doy_ok_all (doy : Z) : 0 <= doy < 366 -> Calendar.doy_ok doy = true.
Proof. intros H. apply (all_from_spec 366 0 _ doys_checked). lia. Qed.

Lemma md_ok_all (m d : Z) :
  1 <= m <= 12 -> 1 <= d <= 31 -> Calendar.md_ok m d = true.
Proof.
  intros Hm Hd.
  apply (all_from_spec 31 1 (Calendar.md_ok m)); [|lia].
  apply (all_from_spec 12 1
           (fun m => Calendar.all_from 31 1 (Calendar.md_ok m)) mds_checked).
  lia.
Qed.

(** The numerator of the year formula does not decrease within an era. *)
Lemma year_numerator_mono (a b : Z) :
  0 <= a <= b -> b <= 146096 ->
  a - a / 1460 + a / 36524 - a / 146096
  <= b - b / 1460 + b / 36524 - b / 146096.
Proof.
  intros Hab Hb.
  Z.div_mod_to_equations. lia.
Qed.

Lemma year_length_bounds (y : Z) : 365 <= Calendar.year_length y <= 366.
Proof. unfold Calendar.year_length. destruct (Calendar.is_leap _); lia. Qed.

(** Every day of a year of the era is mapped to that year. *)
Lemma year_of_doe_correct (y doy : Z) :
  0 <= y < 400 -> 0 <= doy < Calendar.year_length y ->
  Calendar.year_of_doe (Calendar.year_start y + doy) = y
  /\ Calendar.year_start y + doy < 146097
  /\ 0 <= Calendar.year_start y.
Proof.
  intros Hy Hdoy.
  pose proof (year_ok_all y Hy) as Hok.
  unfold Calendar.year_ok in Hok.
  apply andb_prop in Hok as [Hok Hnext].
  apply andb_prop in Hok as [Hfirst Hlast].
  apply Z.eqb_eq in Hfirst, Hlast.
  assert (Hs : 0 <= Calendar.year_start y).
  { unfold Calendar.year_start. Z.div_mod_to_equations. lia. }
  assert (Hend : Calendar.year_start y + Calendar.year_length y <= 146097).
  { destruct (Z.eqb_spec y 399) as [->|Hne].
    - apply Z.eqb_eq in Hnext. lia.
    - apply Z.eqb_eq in Hnext.
      assert (Hy1 : 0 <= y + 1 < 400) by lia.
      pose proof (year_ok_all (y + 1) Hy1) as Hok1.
      unfold Calendar.year_ok in Hok1.
      apply andb_prop in Hok1 as [_ Hnext1].
      pose proof (year_length_bounds (y + 1)).
      destruct (Z.eqb_spec (y + 1) 399) as [E|E]; apply Z.eqb_eq in Hnext1.
      + lia.
      + clear - Hnext Hnext1 H Hy1 E.
        assert (Calendar.year_start (y + 1 + 1) <= 146097).
        { unfold Calendar.year_start. Z.div_mod_to_equations. lia. }
        lia. }
  split; [|split; [lia|exact Hs]].
  assert (Hup : Calendar.year_of_doe (Calendar.year_start y + doy)
                <= Calendar.year_of_doe
                     (Calendar.year_start y + Calendar.year_length y - 1)).
  { unfold Calendar.year_of_doe.
    apply Z.div_le_mono; [lia|].
    apply year_numerator_mono; lia. }
  assert (Hlow : Calendar.year_of_doe (Calendar.year_start y)
                 <= Calendar.year_of_doe (Calendar.year_start y + doy)).
  { unfold Calendar.year_of_doe.
    apply Z.div_le_mono; [lia|].
    apply year_numerator_mono; lia. }
  lia.
Qed.

(** The years of an era cover it. *)
Lemma era_covered (doe : Z) :
  0 <= doe < 146097 ->
  exists y doy,
    0 <= y < 400 /\ 0 <= doy < Calendar.year_length y
    /\ doe = Calendar.year_start y + doy.
Proof.
  intros Hdoe.
  assert (Hind : forall n : nat,
             (n <= 400)%nat ->
             doe < (if Z.of_nat n =? 400 then 146097
                    else Calendar.year_start (Z.of_nat n)) ->
             exists y doy,
               0 <= y < Z.of_nat n /\ 0 <= doy < Calendar.year_length y
               /\ doe = Calendar.year_start y + doy).
  { induction n as [|n IH]; intros Hn Hlt.
    - simpl in Hlt. vm_compute in Hlt. destruct Hdoe as [H0 _].
      exfalso. apply H0. destruct doe; try discriminate; reflexivity.
    - assert (Hy : 0 <= Z.of_nat n < 400) by lia.
      pose proof (year_ok_all _ Hy) as Hok.
      unfold Calendar.year_ok in Hok.
      apply andb_prop in Hok as [_ Hnext].
      replace (Z.of_nat (S n)) with (Z.of_nat n + 1) in * by lia.
      assert (Hend : doe < Calendar.year_start (Z.of_nat n)
                           + Calendar.year_length (Z.of_nat n)).
      { destruct (Z.eqb_spec (Z.of_nat n) 399) as [E|E];
          destruct (Z.eqb_spec (Z.of_nat n + 1) 400) as [E'|E'];
          try lia; apply Z.eqb_eq in Hnext; lia. }
      destruct (Z_lt_le_dec doe (Calendar.year_start (Z.of_nat n)))
        as [Hbelow|Habove].
      + destruct IH as [y [doy [Hy' [Hdoy Heq]]]]; [lia| |].
        * destruct (Z.eqb_spec (Z.of_nat n) 400); [lia|exact Hbelow].
        * exists y, doy. repeat split; try lia.
      + exists (Z.of_nat n), (doe - Calendar.year_start (Z.of_nat n)).
        repeat split; lia. }
  destruct (Hind 400%nat) as [y [doy H]]; [lia|simpl; lia|].
  exists y, doy. exact H.
Qed.

Lemma is_leap_period (a e : Z) :
  Calendar.is_leap (a + e * 400) = Calendar.is_leap a.
Proof.
  unfold Calendar.is_leap.
  replace ((a + e * 400) mod 4) with (a mod 4)
    by (Z.div_mod_to_equations; lia).
  replace ((a + e * 400) mod 100) with (a mod 100)
    by (Z.div_mod_to_equations; lia).
  replace ((a + e * 400) mod 400) with (a mod 400)
    by (Z.div_mod_to_equations; lia).
  reflexivity.
Qed.

Lemma valid_date_period (a e m d : Z) :
  Calendar.valid_date (a + e * 400) m d = Calendar.valid_date a m d.
Proof.
  unfold Calendar.valid_date, Calendar.days_in_month.
  now rewrite is_leap_period.
Qed.

(** [EE.days_from_civil] on a year given by its era and year of the era. *)
Lemma days_from_civil_era (era yoe m d : Z) :
  0 <= yoe < 400 ->
  EE.days_from_civil (yoe + era * 400 + (if m <=? 2 then 1 else 0)) m d
  = era * 146097 + (Calendar.year_start yoe + Calendar.doy_of m d) - 719468.
Proof.
  intros Hyoe.
  unfold EE.days_from_civil, Calendar.year_start, Calendar.doy_of.
  replace (if m <=? 2
           then yoe + era * 400 + (if m <=? 2 then 1 else 0) - 1
           else yoe + era * 400 + (if m <=? 2 then 1 else 0))
    with (yoe + era * 400) by (destruct (m <=? 2); lia).
  replace ((yoe + era * 400) / 400) with era
    by (Z.div_mod_to_equations; lia).
  cbv zeta.
  replace (yoe + era * 400 - era * 400) with yoe by lia.
  lia.
Qed.

(** [EE.civil_from_days] on a day given by its era and day of the era. *)
Lemma civil_from_days_era (era y doy : Z) :
  0 <= y < 400 -> 0 <= doy < Calendar.year_length y ->
  EE.civil_from_days (era * 146097 + (Calendar.year_start y + doy) - 719468)
  = (y + era * 400 + (if fst (Calendar.md_of_doy doy) <=? 2 then 1 else 0),
     fst (Calendar.md_of_doy doy), snd (Calendar.md_of_doy doy)).
Proof.
  intros Hy Hdoy.
  destruct (year_of_doe_correct y doy Hy Hdoy) as [Hyear [Hlt Hs]].
  unfold EE.civil_from_days.
  replace (era * 146097 + (Calendar.year_start y + doy) - 719468 + 719468)
    with (era * 146097 + (Calendar.year_start y + doy)) by lia.
  replace ((era * 146097 + (Calendar.year_start y + doy)) / 146097) with era
    by (Z.div_mod_to_equations; lia).
  cbv zeta.
  replace (era * 146097 + (Calendar.year_start y + doy) - era * 146097)
    with (Calendar.year_start y + doy) by lia.
  change ((Calendar.year_start y + doy - (Calendar.year_start y + doy) / 1460
           + (Calendar.year_start y + doy) / 36524
           - (Calendar.year_start y + doy) / 146096) / 365)
    with (Calendar.year_of_doe (Calendar.year_start y + doy)).
  rewrite Hyear.
  replace (Calendar.year_start y + doy - (365 * y + y / 4 - y / 100))
    with doy by (unfold Calendar.year_start; lia).
  unfold Calendar.md_of_doy. cbv zeta. simpl fst. simpl snd.
  destruct (_ <=? 2); f_equal; f_equal; lia.
Qed.

Lemma doy_ok_facts (doy : Z) :
  0 <= doy < 366 ->
  let m := fst (Calendar.md_of_doy doy) in
  let d := snd (Calendar.md_of_doy doy) in
  1 <= m <= 12 /\ 1 <= d
  /\ d <= (if m =? 2 then (if doy =? 365 then 29 else 28)
           else Calendar.days_in_month 1 m)
  /\ Calendar.doy_of m d = doy
  /\ (m <= 2 <-> 306 <= doy).
Proof.
  intros Hdoy m d.
  pose proof (doy_ok_all doy Hdoy) as Hok.
  unfold Calendar.doy_ok in Hok. subst m d.
  destruct (Calendar.md_of_doy doy) as [m d]. cbn [fst snd].
  apply andb_prop in Hok as [Hok Hjan].
  apply andb_prop in Hok as [Hok Hback].
  apply andb_prop in Hok as [Hok Hdim].
  apply andb_prop in Hok as [Hok Hd].
  apply andb_prop in Hok as [Hm1 Hm12].
  apply eqb_prop in Hjan.
  apply Z.leb_le in Hm1, Hm12, Hd, Hdim. apply Z.eqb_eq in Hback.
  repeat split; try assumption.
  - intros Hm. apply Z.leb_le. rewrite <- Hjan. now apply Z.leb_le.
  - intros Hm. apply Z.leb_le. rewrite Hjan. now apply Z.leb_le.
Qed.

Lemma md_ok_facts (m d : Z) :
  1 <= m <= 12 -> 1 <= d ->
  d <= (if m =? 2 then 29 else Calendar.days_in_month 1 m) ->
  0 <= Calendar.doy_of m d <= 365
  /\ Calendar.md_of_doy (Calendar.doy_of m d) = (m, d)
  /\ (Calendar.doy_of m d = 365 <-> m = 2 /\ d = 29).
Proof.
  intros Hm Hd Hdim.
  assert (Hd31 : d <= 31).
  { unfold Calendar.days_in_month in Hdim.
    destruct (m =? 2); [lia|].
    destruct (_ || _); lia. }
  pose proof (md_ok_all m d Hm (conj Hd Hd31)) as Hok.
  unfold Calendar.md_ok in Hok.
  apply Z.leb_le in Hdim. rewrite Hdim in Hok. cbn [implb] in Hok.
  destruct (Calendar.md_of_doy (Calendar.doy_of m d)) as [m' d'].
  apply andb_prop in Hok as [Hok Hfeb].
  apply andb_prop in Hok as [Hok Hback].
  apply andb_prop in Hok as [Hlo Hhi].
  apply andb_prop in Hback as [Hm' Hd'].
  apply eqb_prop in Hfeb.
  apply Z.eqb_eq in Hm', Hd'. subst m' d'.
  apply Z.leb_le in Hlo, Hhi.
  split; [lia|]. split; [reflexivity|]. split.
  - intros E. apply Z.eqb_eq in E. rewrite E in Hfeb. symmetry in Hfeb.
    apply andb_prop in Hfeb as [Hm2 Hd29].
    apply Z.eqb_eq in Hm2, Hd29. now split.
  - intros [-> ->]. reflexivity.
Qed.

Lemma days_in_month_other (y m : Z) :
  m <> 2 -> Calendar.days_in_month y m = Calendar.days_in_month 1 m.
Proof.
  intros Hm. unfold Calendar.days_in_month.
  now destruct (Z.eqb_spec m 2).
Qed.

(** What [EE.civil_from_days] returns for a day, with the era and the year
    of the era it falls in. *)
Lemma civil_from_days_spec (z : Z) :
  exists era yoe m d,
    EE.civil_from_days z
    = (yoe + era * 400 + (if m <=? 2 then 1 else 0), m, d)
    /\ 0 <= yoe < 400
    /\ era = (z + 719468) / 146097
    /\ Calendar.valid_date (yoe + (if m <=? 2 then 1 else 0)) m d = true
    /\ z = era * 146097 + (Calendar.year_start yoe + Calendar.doy_of m d)
           - 719468
    /\ (m <= 2 <-> 306 <= Calendar.doy_of m d)
    /\ 0 <= Calendar.doy_of m d < Calendar.year_length yoe.
Proof.
  set (era := (z + 719468) / 146097).
  assert (Hdoe : 0 <= z + 719468 - era * 146097 < 146097).
  { subst era. Z.div_mod_to_equations. lia. }
  destruct (era_covered _ Hdoe) as [y [doy [Hy [Hdoy Heq]]]].
  pose proof (year_length_bounds y) as Hlen.
  assert (Hdoy' : 0 <= doy < 366) by lia.
  destruct (doy_ok_facts doy Hdoy') as [Hm [Hd [Hdim [Hback Hjan]]]].
  exists era, y, (fst (Calendar.md_of_doy doy)), (snd (Calendar.md_of_doy doy)).
  replace z with (era * 146097 + (Calendar.year_start y + doy) - 719468) at 1
    by lia.
  rewrite civil_from_days_era by assumption.
  rewrite Hback.
  set (m := fst (Calendar.md_of_doy doy)) in *.
  set (d := snd (Calendar.md_of_doy doy)) in *.
  clearbody m d.
  split; [reflexivity|]. split; [lia|]. split; [reflexivity|].
  split; [|split; [lia|split; [exact Hjan|lia]]].
  unfold Calendar.valid_date.
  destruct Hm as [Hm1 Hm12].
  apply Z.leb_le in Hm1, Hm12, Hd. rewrite Hm1, Hm12, Hd.
  cbn [andb].
  apply Z.leb_le.
  destruct (Z.eqb_spec m 2) as [E|E].
  - subst m. cbn [Z.leb Z.compare Pos.compare Pos.compare_cont].
    unfold Calendar.days_in_month. cbn [Z.eqb Pos.eqb].
    unfold Calendar.year_length in Hdoy.
    destruct (Z.eqb_spec doy 365) as [E'|E'];
      destruct (Calendar.is_leap (y + 1)); lia.
  - now rewrite days_in_month_other.
Qed.

(** Day number to date and back. *)
Lemma days_civil_roundtrip (z : Z) :
  let '(y, m, d) := EE.civil_from_days z in
  EE.days_from_civil y m d = z /\ Calendar.valid_date y m d = true.
Proof.
  destruct (civil_from_days_spec z)
    as [era [yoe [m [d [-> [Hyoe [_ [Hvalid [Hz _]]]]]]]]].
  split.
  - rewrite days_from_civil_era by assumption. lia.
  - replace (yoe + era * 400 + (if m <=? 2 then 1 else 0))
      with (yoe + (if m <=? 2 then 1 else 0) + era * 400) by lia.
    now rewrite valid_date_period.
Qed.

(** Date to day number and back. *)
Lemma civil_days_roundtrip (y m d : Z) :
  Calendar.valid_date y m d = true ->
  EE.civil_from_days (EE.days_from_civil y m d) = (y, m, d).
Proof.
  intros Hvalid.
  set (adj := if m <=? 2 then 1 else 0).
  set (era := (y - adj) / 400).
  set (yoe := y - adj - era * 400).
  assert (Hyoe : 0 <= yoe < 400).
  { subst yoe era. Z.div_mod_to_equations. lia. }
  assert (Hy : y = yoe + era * 400 + adj) by (subst yoe; lia).
  unfold Calendar.valid_date in Hvalid.
  repeat (apply andb_prop in Hvalid as [Hvalid ?]).
  apply Z.leb_le in Hvalid, H, H0, H1.
  assert (Hdim : d <= (if m =? 2 then 29 else Calendar.days_in_month 1 m)).
  { destruct (Z.eqb_spec m 2) as [->|E].
    - unfold Calendar.days_in_month in H. simpl in H.
      destruct (Calendar.is_leap y); lia.
    - now rewrite <- (days_in_month_other y). }
  destruct (md_ok_facts m d (conj Hvalid H1) H0 Hdim)
    as [Hdoy [Hback Hfeb29]].
  assert (Hlen : Calendar.doy_of m d < Calendar.year_length yoe).
  { pose proof (year_length_bounds yoe).
    destruct (Z.eq_dec (Calendar.doy_of m d) 365) as [E|E]; [|lia].
    destruct (proj1 Hfeb29 E) as [-> ->].
    unfold Calendar.days_in_month in H. simpl in H.
    unfold Calendar.year_length.
    replace (yoe + 1) with (y + (- era) * 400) by (subst adj; simpl in Hy; lia).
    rewrite is_leap_period.
    destruct (Calendar.is_leap y); lia. }
  rewrite Hy. subst adj.
  rewrite days_from_civil_era by assumption.
  rewrite civil_from_days_era by lia.
  now rewrite Hback.
Qed.

(** ** Date strings *)

Lemma digit_value_digit (n : Z) :
  0 <= n <= 9 -> Calendar.digit_value (UI.digit n) = Some n.
Proof.
  intros Hn.
  destruct n as [|p|p]; [reflexivity| |lia].
  split_pos p 4%nat; try lia; reflexivity.
Qed.

Lemma digit_of_value (c : ascii) (v : Z) :
  Calendar.digit_value c = Some v -> UI.digit v = c /\ 0 <= v <= 9.
Proof.
  destruct c as [[] [] [] [] [] [] [] []]; vm_compute;
    try discriminate; intros [= <-]; split; try reflexivity;
    split; discriminate.
Qed.

Lemma digits_4 (y : Z) :
  UI.digits 4 y
  = String (UI.digit (y / 10 / 10 / 10 mod 10))
      (String (UI.digit (y / 10 / 10 mod 10))
         (String (UI.digit (y / 10 mod 10))
            (String (UI.digit (y mod 10)) EmptyString))).
Proof. reflexivity. Qed.

Lemma digits_2 (m : Z) :
  UI.digits 2 m
  = String (UI.digit (m / 10 mod 10))
      (String (UI.digit (m mod 10)) EmptyString).
Proof. reflexivity. Qed.

(** The date string of a date with a four-digit year. *)
Lemma parse_format (y m d : Z) :
  0 <= y <= 9999 -> 0 <= m <= 99 -> 0 <= d <= 99 ->
  Calendar.parse_ymd
    (UI.digits 4 y ++ "-" ++ UI.digits 2 m ++ "-" ++ UI.digits 2 d)
  = Some (y, m, d).
Proof.
  intros Hy Hm Hd.
  rewrite digits_4, !digits_2.
  cbn [String.append Calendar.parse_ymd].
  change (Ascii.eqb "-" "-") with true. cbn [andb].
  rewrite !digit_value_digit by (Z.div_mod_to_equations; lia).
  cbn [bind]. f_equal. f_equal; [f_equal|]; Z.div_mod_to_equations; lia.
Qed.

Lemma format_parse (s : string) (y m d : Z) :
  Calendar.parse_ymd s = Some (y, m, d) ->
  (UI.digits 4 y ++ "-" ++ UI.digits 2 m ++ "-" ++ UI.digits 2 d)%string = s
  /\ 0 <= y <= 9999.
Proof.
  unfold Calendar.parse_ymd.
  destruct s as [|y3 [|y2 [|y1 [|y0 [|s1 [|m1 [|m0 [|s2 [|d1 [|d0 [|? ?]]]]]]]]]]];
    try discriminate.
  destruct (Ascii.eqb_spec s1 "-") as [->|]; [|discriminate].
  destruct (Ascii.eqb_spec s2 "-") as [->|]; [|discriminate].
  cbn [andb].
  destruct (Calendar.digit_value y3) as [a|] eqn:Ha; [|discriminate].
  destruct (Calendar.digit_value y2) as [b|] eqn:Hb; [|discriminate].
  destruct (Calendar.digit_value y1) as [c|] eqn:Hc; [|discriminate].
  destruct (Calendar.digit_value y0) as [e|] eqn:He; [|discriminate].
  destruct (Calendar.digit_value m1) as [f|] eqn:Hf; [|discriminate].
  destruct (Calendar.digit_value m0) as [g|] eqn:Hg; [|discriminate].
  destruct (Calendar.digit_value d1) as [h|] eqn:Hh; [|discriminate].
  destruct (Calendar.digit_value d0) as [i|] eqn:Hi; [|discriminate].
  cbn [bind]. intros Heq.
  assert (Hy : y = 1000 * a + 100 * b + 10 * c + e) by congruence.
  assert (Hm : m = 10 * f + g) by congruence.
  assert (Hd : d = 10 * h + i) by congruence.
  clear Heq.
  apply digit_of_value in Ha as [<- Ha]. apply digit_of_value in Hb as [<- Hb].
  apply digit_of_value in Hc as [<- Hc]. apply digit_of_value in He as [<- He].
  apply digit_of_value in Hf as [<- Hf]. apply digit_of_value in Hg as [<- Hg].
  apply digit_of_value in Hh as [<- Hh]. apply digit_of_value in Hi as [<- Hi].
  split; [|lia].
  rewrite digits_4, !digits_2. cbn [String.append].
  repeat (f_equal; try (Z.div_mod_to_equations; lia)).
Qed.

Lemma valid_date_bounds (y m d : Z) :
  Calendar.valid_date y m d = true -> 1 <= m <= 12 /\ 1 <= d <= 31.
Proof.
  unfold Calendar.valid_date, Calendar.days_in_month. intros H.
  apply andb_prop in H as [H Hd2].
  apply andb_prop in H as [H Hd1].
  apply andb_prop in H as [Hm1 Hm2].
  apply Z.leb_le in Hm1, Hm2, Hd1, Hd2.
  destruct (m =? 2); [destruct (Calendar.is_leap y); lia|].
  destruct (_ || _); lia.
Qed.

(** The days from 0000-01-01 up to 9999-12-31 have a four-digit year. *)
Lemma civil_year_range (z : Z) :
  -719528 <= z < 2932897 ->
  0 <= fst (fst (EE.civil_from_days z)) <= 9999.
Proof.
  intros Hz.
  destruct (civil_from_days_spec z)
    as [era [yoe [m [d [-> [Hyoe [Hera [_ [Heq [Hjan Hdoy]]]]]]]]]].
  cbn [fst].
  pose proof (year_length_bounds yoe) as Hlen.
  assert (Hera' : -1 <= era <= 24)
    by (subst era; Z.div_mod_to_equations; lia).
  assert (Hstart : yoe <= 398 -> Calendar.year_start yoe <= 145369)
    by (intros ?; unfold Calendar.year_start; Z.div_mod_to_equations; lia).
  assert (H399 : yoe = 399 -> Calendar.year_start yoe = 145731)
    by (intros ->; reflexivity).
  destruct (Z.leb_spec m 2) as [Hm|Hm].
  - assert (306 <= Calendar.doy_of m d) by (apply Hjan; exact Hm). lia.
  - assert (~ 306 <= Calendar.doy_of m d)
      by (intros H; apply Hjan in H; lia).
    lia.
Qed.

(** [new Date(x).toISOString()] names the UTC day that contains the instant
    [x], and [ee.Date] reads that name back as the midnight of that day. *)
Lemma date_string_of_instant (x : Z) :
  EE.Date 0 1 1 <= x < EE.Date 10000 1 1 ->
  exists s,
    UI.toISOString_date x = Some s
    /\ Calendar.Date_of_string s = Some (x - x mod EE.ms_per_day).
Proof.
  intros [Hlo Hhi].
  change (EE.Date 0 1 1) with (-719528 * 86400000) in Hlo.
  change (EE.Date 10000 1 1) with (2932897 * 86400000) in Hhi.
  unfold UI.toISOString_date.
  destruct (Z.gtb_spec (Z.abs x) 8640000000000000) as [Hbig|_]; [lia|].
  assert (Hz : -719528 <= x / EE.ms_per_day < 2932897).
  { unfold EE.ms_per_day. Z.div_mod_to_equations. lia. }
  pose proof (civil_year_range _ Hz) as Hyear.
  pose proof (days_civil_roundtrip (x / EE.ms_per_day)) as Hback.
  destruct (EE.civil_from_days (x / EE.ms_per_day)) as [[y m] d].
  cbn [fst] in Hyear. destruct Hback as [Hdays Hvalid].
  destruct (valid_date_bounds _ _ _ Hvalid) as [Hm Hd].
  destruct Hyear as [Hy0 Hy9].
  apply Z.leb_le in Hy0, Hy9. rewrite Hy0, Hy9. cbn [andb].
  apply Z.leb_le in Hy0, Hy9.
  eexists. split; [reflexivity|].
  unfold Calendar.Date_of_string.
  rewrite parse_format by lia.
  rewrite Hvalid. f_equal.
  unfold EE.Date. rewrite Hdays.
  unfold EE.ms_per_day. Z.div_mod_to_equations. lia.
Qed.

Lemma days_from_civil_range (y m d : Z) :
  0 <= y <= 9999 -> 1 <= m <= 12 -> 1 <= d <= 31 ->
  -1000000 <= EE.days_from_civil y m d <= 4000000.
Proof.
  intros Hy Hm Hd. unfold EE.days_from_civil.
  destruct (m <=? 2), (m >? 2); Z.div_mod_to_equations; lia.
Qed.

(** A date string read by [ee.Date] is the one [toISOString] writes for
    every instant of that day. *)
Lemma instant_of_date_string (s : string) (t r : Z) :
  Calendar.Date_of_string s = Some t ->
  0 <= r < EE.ms_per_day ->
  UI.toISOString_date (t + r) = Some s.
Proof.
  unfold Calendar.Date_of_string. intros Hs Hr.
  destruct (Calendar.parse_ymd s) as [[[y m] d]|] eqn:Hparse; [|discriminate].
  destruct (Calendar.valid_date y m d) eqn:Hvalid; [|discriminate].
  injection Hs as <-.
  destruct (format_parse _ _ _ _ Hparse) as [Hformat Hy].
  destruct (valid_date_bounds _ _ _ Hvalid) as [Hm Hd].
  pose proof (days_from_civil_range y m d Hy Hm Hd) as Hrange.
  unfold UI.toISOString_date, EE.Date.
  unfold EE.ms_per_day in *.
  destruct (Z.gtb_spec (Z.abs (EE.days_from_civil y m d * 86400000 + r))
              8640000000000000) as [Hbig|_]; [lia|].
  replace ((EE.days_from_civil y m d * 86400000 + r) / 86400000)
    with (EE.days_from_civil y m d) by (Z.div_mod_to_equations; lia).
  rewrite civil_days_roundtrip by exact Hvalid.
  destruct Hy as [Hy0 Hy9].
  apply Z.leb_le in Hy0, Hy9. rewrite Hy0, Hy9. cbn [andb].
  now rewrite Hformat.
Qed.

(** ** The timeline click, in full *)

Lemma chart_onClick_accepted (w : App.World) (c : EE.Coords) (x : Z)
    (s : string) (ui : UI.State) :
  x <> 0 -> UI.toISOString_date x = Some s ->
  App.chart_onClick w c (Some x) ui
  = UI.mkState (UI.leftMap ui)
      (UI.rightMap ui
       ++ [UI.mkLayer
             (UI.ImageObject
                (EE.first
                   (EE.filterDate x (x + 86400000)
                      (EE.filterBounds (App.point c) (App.S2_collection w)))))
             App.rgbVis ("Clicked Date RGB (" ++ s ++ ")") true;
           UI.mkLayer
             (UI.ImageObject
                (EE.first
                   (EE.filterDate x (x + 86400000)
                      (EE.filterBounds (App.point c) (App.S2_collection w)))))
             App.falseVis ("Clicked Date False Color (" ++ s ++ ")") true])
      (UI.chartPanel_shown ui) (UI.chartPanel ui).
Proof.
  intros Hx Hs. unfold App.chart_onClick.
  destruct (Z.eqb_spec x 0) as [E|_]; [contradiction|].
  rewrite Hs. unfold UI.addLayer.
  rewrite <- app_assoc. reflexivity.
Qed.

(** X1: a timeline click at an instant of the years 0000 to 9999 (other than
    the epoch itself) leaves the left map and the chart panel alone and puts
    two shown layers on top of the right map, a true-color and a
    false-color rendering of the same image; both are named after the UTC
    day that contains the clicked instant, in the form [ee.Date] reads back
    as the midnight of that day. *)
Theorem X1_timeline_click_names_the_day (w : App.World) (c : EE.Coords)
    (x : Z) (ui : UI.State)
    (Hx : x <> 0)
    (Hrange : EE.Date 0 1 1 <= x < EE.Date 10000 1 1) :
  exists s img,
    Calendar.Date_of_string s = Some (x - x mod EE.ms_per_day)
    /\ App.chart_onClick w c (Some x) ui
       = UI.mkState (UI.leftMap ui)
           (UI.rightMap ui
            ++ [UI.mkLayer (UI.ImageObject img) App.rgbVis
                  ("Clicked Date RGB (" ++ s ++ ")") true;
                UI.mkLayer (UI.ImageObject img) App.falseVis
                  ("Clicked Date False Color (" ++ s ++ ")") true])
           (UI.chartPanel_shown ui) (UI.chartPanel ui).
Proof.
  destruct (date_string_of_instant x Hrange) as [s [Hs Hback]].
  exists s. eexists. split; [exact Hback|].
  now apply chart_onClick_accepted.
Qed.

Lemma X1_timeline_click_names_the_day_witness :
  exists s img,
    Calendar.Date_of_string s
    = Some (EE.Date 2021 3 16 + 49000000
            - (EE.Date 2021 3 16 + 49000000) mod EE.ms_per_day)
    /\ App.chart_onClick Examples.frost_world Examples.p0
         (Some (EE.Date 2021 3 16 + 49000000)) Examples.ui0
       = UI.mkState (UI.leftMap Examples.ui0)
           (UI.rightMap Examples.ui0
            ++ [UI.mkLayer (UI.ImageObject img) App.rgbVis
                  ("Clicked Date RGB (" ++ s ++ ")") true;
                UI.mkLayer (UI.ImageObject img) App.falseVis
                  ("Clicked Date False Color (" ++ s ++ ")") true])
           (UI.chartPanel_shown Examples.ui0) (UI.chartPanel Examples.ui0).
Proof.
  apply (X1_timeline_click_names_the_day Examples.frost_world Examples.p0
           (EE.Date 2021 3 16 + 49000000) Examples.ui0).
  - vm_compute. discriminate.
  - vm_compute. split; [discriminate|reflexivity].
Defined.

(** The names a click on the scene of March 16 gives its layers. *)
Example click_on_mar16 :
  map UI.layer_name
    (UI.rightMap
       (App.chart_onClick Examples.frost_world Examples.p0
          (Some (EE.Date 2021 3 16)) Examples.ui0))
  = ["Clicked Date RGB (2021-03-16)";
     "Clicked Date False Color (2021-03-16)"]%string.
Proof. vm_compute. reflexivity. Qed.

(** X2: for a date string that [ee.Date] accepts, a timeline click at any
    instant of that UTC day (other than the epoch) names its two layers with
    that very string. *)
Theorem X2_click_within_a_day (w : App.World) (c : EE.Coords) (s : string)
    (t r : Z) (ui : UI.State)
    (Hs : Calendar.Date_of_string s = Some t)
    (Hr : 0 <= r < EE.ms_per_day)
    (Hx : t + r <> 0) :
  map UI.layer_name (UI.rightMap (App.chart_onClick w c (Some (t + r)) ui))
  = map UI.layer_name (UI.rightMap ui)
    ++ [("Clicked Date RGB (" ++ s ++ ")")%string;
        ("Clicked Date False Color (" ++ s ++ ")")%string].
Proof.
  rewrite (chart_onClick_accepted w c (t + r) s ui Hx)
    by (now apply instant_of_date_string).
  cbn [UI.rightMap]. now rewrite map_app.
Qed.

Lemma X2_click_within_a_day_witness :
  map UI.layer_name
    (UI.rightMap
       (App.chart_onClick Examples.frost_world Examples.p0
          (Some (EE.Date 2021 5 25 + 3600000))
          (App.click Examples.frost_world Examples.p0 Examples.ui0)))
  = map UI.layer_name
      (UI.rightMap (App.click Examples.frost_world Examples.p0 Examples.ui0))
    ++ ["Clicked Date RGB (2021-05-25)";
        "Clicked Date False Color (2021-05-25)"]%string.
Proof.
  apply (X2_click_within_a_day Examples.frost_world Examples.p0
           "2021-05-25" (EE.Date 2021 5 25) 3600000).
  - reflexivity.
  - unfold EE.ms_per_day. lia.
  - vm_compute. discriminate.
Defined.

(** ** The image of a timeline click *)

Lemma filter_filter_andb {A : Type} (P Q : A -> bool) (l : list A) :
  filter P (filter Q l) = filter (fun a => Q a && P a) l.
Proof.
  induction l as [|a l IH]; simpl; [reflexivity|].
  destruct (Q a); simpl; [|exact IH].
  destruct (P a); now rewrite IH.
Qed.

Lemma hd_error_map {A B : Type} (f : A -> B) (l : list A) :
  hd_error (map f l) = option_map f (hd_error l).
Proof. now destruct l. Qed.

(** The first element that passes a test, in the list it is taken from. *)
Lemma hd_error_filter {A : Type} (P : A -> bool) (l : list A) :
  match hd_error (filter P l) with
  | Some a =>
      exists pre post,
        l = pre ++ a :: post /\ P a = true
        /\ forall b, In b pre -> P b = false
  | None => forall b, In b l -> P b = false
  end.
Proof.
  induction l as [|a l IH]; simpl; [intros b []|].
  destruct (P a) eqn:Ha; simpl.
  - exists [], l. repeat split; [exact Ha|intros b []].
  - destruct (hd_error (filter P l)) as [a'|].
    + destruct IH as [pre [post [-> [Ha' Hpre]]]].
      exists (a :: pre), post. repeat split; [exact Ha'|].
      intros b [<-|Hb]; auto.
    + intros b [<-|Hb]; auto.
Qed.

Lemma clicked_image (w : App.World) (c : EE.Coords) (x : Z) :
  EE.first
    (EE.filterDate x (x + 86400000)
       (EE.filterBounds (App.point c) (App.S2_collection w)))
  = option_map App.S2_image
      (hd_error (filter (Trace.click_matches (App.point c) x)
                   (App.S2_SR_HARMONIZED w))).
Proof.
  unfold EE.first, EE.filterDate, EE.filterBounds, App.S2_collection.
  rewrite !filter_map_comm, filter_filter_andb, hd_error_map.
  reflexivity.
Qed.

Lemma toISOString_date_defined (x : Z) :
  Z.abs x <= 8640000000000000 -> exists s, UI.toISOString_date x = Some s.
Proof.
  intros Hx. unfold UI.toISOString_date.
  destruct (Z.gtb_spec (Z.abs x) 8640000000000000) as [Hbig|_]; [lia|].
  destruct (EE.civil_from_days _) as [[y m] d].
  eexists. reflexivity.
Qed.

Lemma accepted_spec (x : Z) :
  Spec.accepted (Some x) = true ->
  x <> 0 /\ exists s, UI.toISOString_date x = Some s.
Proof.
  unfold Spec.accepted. intros H.
  apply andb_prop in H as [H0 Hrange].
  apply Z.leb_le in Hrange.
  split; [|now apply toISOString_date_defined].
  intros ->. discriminate.
Qed.

(** X3: the image a timeline click at [x] puts on the right map is the first
    scene of the archive, in archive order, that covers the clicked point
    and is stamped within the 24 hours from [x] on; neither the cloud
    percentage of the scene nor the study window is consulted.  When no
    scene matches, the two layers are added all the same, with no image. *)
Theorem X3_clicked_image (w : App.World) (c : EE.Coords) (x : Z)
    (ui : UI.State)
    (Haccepted : Spec.accepted (Some x) = true) :
  exists l1 l2 found,
    UI.rightMap (App.chart_onClick w c (Some x) ui)
    = UI.rightMap ui ++ [l1; l2]
    /\ UI.layer_eeObject l1 = UI.ImageObject (option_map App.S2_image found)
    /\ UI.layer_eeObject l2 = UI.ImageObject (option_map App.S2_image found)
    /\ match found with
       | Some s =>
           exists pre post,
             App.S2_SR_HARMONIZED w = pre ++ s :: post
             /\ App.scene_footprint s (App.point c) = true
             /\ x <= App.scene_time_start s < x + 86400000
             /\ forall s',
                  In s' pre ->
                  App.scene_footprint s' (App.point c) = true ->
                  ~ (x <= App.scene_time_start s' < x + 86400000)
       | None =>
           forall s',
             In s' (App.S2_SR_HARMONIZED w) ->
             App.scene_footprint s' (App.point c) = true ->
             ~ (x <= App.scene_time_start s' < x + 86400000)
       end.
Proof.
  destruct (accepted_spec x Haccepted) as [Hx [s Hs]].
  rewrite (chart_onClick_accepted w c x s ui Hx Hs), clicked_image.
  cbn [UI.rightMap].
  eexists. eexists.
  exists (hd_error (filter (Trace.click_matches (App.point c) x)
                      (App.S2_SR_HARMONIZED w))).
  split; [reflexivity|]. split; [reflexivity|]. split; [reflexivity|].
  pose proof (hd_error_filter (Trace.click_matches (App.point c) x)
                (App.S2_SR_HARMONIZED w)) as H.
  assert (Hno : forall s', Trace.click_matches (App.point c) x s' = false ->
                App.scene_footprint s' (App.point c) = true ->
                ~ (x <= App.scene_time_start s' < x + 86400000)).
  { unfold Trace.click_matches. intros s' Hm Hf [Hlo Hhi].
    apply Z.leb_le in Hlo. apply Z.ltb_lt in Hhi.
    now rewrite Hf, Hlo, Hhi in Hm. }
  destruct (hd_error _) as [found|].
  - destruct H as [pre [post [Harchive [Hm Hpre]]]].
    exists pre, post. split; [exact Harchive|].
    unfold Trace.click_matches in Hm.
    apply andb_prop in Hm as [Hf Ht]. apply andb_prop in Ht as [Hlo Hhi].
    apply Z.leb_le in Hlo. apply Z.ltb_lt in Hhi.
    split; [exact Hf|]. split; [lia|].
    intros s' Hin. apply Hno. now apply Hpre.
  - intros s' Hin. apply Hno. now apply H.
Qed.

Lemma X3_clicked_image_witness :
  exists l1 l2 found,
    UI.rightMap
      (App.chart_onClick Examples.frost_world Examples.p0
         (Some (EE.Date 2021 5 25)) Examples.ui0)
    = UI.rightMap Examples.ui0 ++ [l1; l2]
    /\ UI.layer_eeObject l1 = UI.ImageObject (option_map App.S2_image found)
    /\ UI.layer_eeObject l2 = UI.ImageObject (option_map App.S2_image found)
    /\ match found with
       | Some s =>
           exists pre post,
             App.S2_SR_HARMONIZED Examples.frost_world = pre ++ s :: post
             /\ App.scene_footprint s (App.point Examples.p0) = true
             /\ EE.Date 2021 5 25 <= App.scene_time_start s
                < EE.Date 2021 5 25 + 86400000
             /\ forall s',
                  In s' pre ->
                  App.scene_footprint s' (App.point Examples.p0) = true ->
                  ~ (EE.Date 2021 5 25 <= App.scene_time_start s'
                     < EE.Date 2021 5 25 + 86400000)
       | None =>
           forall s',
             In s' (App.S2_SR_HARMONIZED Examples.frost_world) ->
             App.scene_footprint s' (App.point Examples.p0) = true ->
             ~ (EE.Date 2021 5 25 <= App.scene_time_start s'
                < EE.Date 2021 5 25 + 86400000)
       end.
Proof.
  apply (X3_clicked_image Examples.frost_world Examples.p0
           (EE.Date 2021 5 25) Examples.ui0).
  reflexivity.
Defined.

(** ** Layers over a run of events *)

Lemma chart_onClick_appends (w : App.World) (c : EE.Coords) (x : option Z)
    (ui : UI.State) :
  UI.leftMap (App.chart_onClick w c x ui) = UI.leftMap ui
  /\ UI.rightMap (App.chart_onClick w c x ui)
     = UI.rightMap ui ++ Trace.right_layers w (App.ChartClick c x)
  /\ List.length (Trace.right_layers w (App.ChartClick c x))
     = if Spec.accepted x then 2%nat else 0%nat.
Proof.
  unfold Trace.right_layers. cbn [App.step].
  destruct x as [x|]; [|cbn; now rewrite app_nil_r].
  destruct (Spec.accepted (Some x)) eqn:Hacc.
  - destruct (accepted_spec x Hacc) as [Hx [s Hs]].
    rewrite !(chart_onClick_accepted w c x s _ Hx Hs).
    cbn [UI.leftMap UI.rightMap app List.length]. repeat split.
  - unfold App.chart_onClick. unfold Spec.accepted in Hacc.
    destruct (Z.eqb_spec x 0) as [E|E];
      [cbn; now rewrite app_nil_r|].
    cbn [negb andb] in Hacc. apply Z.leb_gt in Hacc.
    unfold UI.toISOString_date.
    destruct (Z.gtb_spec (Z.abs x) 8640000000000000) as [_|Hsmall]; [|lia].
    cbn. now rewrite app_nil_r.
Qed.

Lemma step_appends (w : App.World) (ui : UI.State) (e : App.Event) :
  UI.leftMap (App.step w ui e)
  = UI.leftMap ui ++ map App.dotLeft (Trace.map_clicks [e])
  /\ UI.rightMap (App.step w ui e) = UI.rightMap ui ++ Trace.right_layers w e.
Proof.
  destruct e as [c|c|c x|].
  - destruct (showTimeSeries_layers c ui) as [HL HR].
    cbn [App.step]. rewrite HL, HR. split; reflexivity.
  - cbn [App.step]. unfold Trace.right_layers. cbn [App.step].
    unfold App.evaluated. destruct (App.frost_result w c); cbn;
      now rewrite !app_nil_r.
  - destruct (chart_onClick_appends w c x ui) as [HL [HR _]].
    cbn [App.step]. rewrite HL, HR. cbn. now rewrite app_nil_r.
  - cbn. now rewrite !app_nil_r.
Qed.

Lemma map_clicks_app (es es' : list App.Event) :
  Trace.map_clicks (es ++ es') = Trace.map_clicks es ++ Trace.map_clicks es'.
Proof. unfold Trace.map_clicks. apply flat_map_app. Qed.

Lemma run_appends (w : App.World) (es : list App.Event) (ui : UI.State) :
  UI.leftMap (App.run w ui es)
  = UI.leftMap ui ++ map App.dotLeft (Trace.map_clicks es)
  /\ UI.rightMap (App.run w ui es)
     = UI.rightMap ui ++ flat_map (Trace.right_layers w) es.
Proof.
  revert ui.
  induction es as [|e es IH]; intros ui.
  - cbn. now rewrite !app_nil_r.
  - destruct (step_appends w ui e) as [HL HR].
    destruct (IH (App.step w ui e)) as [HL' HR'].
    change (App.run w ui (e :: es)) with (App.run w (App.step w ui e) es).
    rewrite HL', HR', HL, HR.
    change (e :: es) with ([e] ++ es).
    rewrite map_clicks_app, map_app, flat_map_app, !app_assoc.
    cbn [flat_map]. now rewrite app_nil_r.
Qed.

Lemma right_layers_length (w : App.World) (es : list App.Event) :
  List.length (flat_map (Trace.right_layers w) es)
  = (List.length (Trace.map_clicks es)
     + 2 * List.length (Trace.accepted_clicks es))%nat.
Proof.
  induction es as [|e es IH]; [reflexivity|].
  change (e :: es) with ([e] ++ es).
  unfold Trace.accepted_clicks in *.
  rewrite map_clicks_app, !flat_map_app, !length_app, IH.
  cbn [flat_map]. rewrite !app_nil_r.
  assert (H1 : List.length (Trace.right_layers w e)
               = (List.length (Trace.map_clicks [e])
                  + 2 * List.length
                          (match e with
                           | App.ChartClick c (Some x) =>
                               if Spec.accepted (Some x) then [(c, x)] else []
                           | _ => []
                           end))%nat).
  { destruct e as [c|c|c x|].
    - reflexivity.
    - unfold Trace.right_layers. cbn [App.step]. unfold App.evaluated.
      now destruct (App.frost_result w c).
    - destruct (chart_onClick_appends w c x (UI.mkState [] [] false []))
        as [_ [_ Hlen]].
      rewrite Hlen. destruct x as [x|]; [|reflexivity].
      now destruct (Spec.accepted (Some x)).
    - reflexivity. }
  lia.
Qed.

(** X4: no handler ever removes, replaces or reorders a layer.  After any
    run of events the left map holds the layers it had, followed by one red
    dot per map click, in click order; the right map holds the layers it
    had, followed by what each event added, which is one dot per map click
    and two imagery layers per timeline click that carried a usable
    instant. *)
Theorem X4_layers_accumulate (w : App.World) (es : list App.Event)
    (ui : UI.State) :
  UI.leftMap (App.run w ui es)
  = UI.leftMap ui ++ map App.dotLeft (Trace.map_clicks es)
  /\ UI.rightMap (App.run w ui es)
     = UI.rightMap ui ++ flat_map (Trace.right_layers w) es
  /\ List.length (UI.rightMap (App.run w ui es))
     = (List.length (UI.rightMap ui) + List.length (Trace.map_clicks es)
        + 2 * List.length (Trace.accepted_clicks es))%nat.
Proof.
  destruct (run_appends w es ui) as [HL HR].
  split; [exact HL|]. split; [exact HR|].
  rewrite HR, length_app, right_layers_length. lia.
Qed.

(** ** The values on the chart *)

Lemma scale_nonneg (n : N) : (0 <= Spec.scale n)%Q.
Proof.
  unfold Spec.scale, Qle. simpl. lia.
Qed.

Lemma nd_pixel_bounds (a b v : Q) :
  (0 <= a)%Q -> (0 <= b)%Q -> EE.nd_pixel a b = Some v ->
  (-1 <= v <= 1)%Q.
Proof.
  intros Ha Hb. unfold EE.nd_pixel.
  destruct (Qeq_bool (a + b) 0) eqn:Hz; [discriminate|].
  intros [= <-].
  assert (Hne : ~ (a + b == 0)%Q).
  { intros E. apply Qeq_bool_iff in E. congruence. }
  assert (Hpos : (0 < a + b)%Q) by lra.
  split.
  - apply Qle_shift_div_l; [exact Hpos|lra].
  - apply Qle_shift_div_r; [exact Hpos|lra].
Qed.

Lemma ndvi_at_bounds (s : App.S2Scene) (p : EE.Coords) (v : Q) :
  Spec.ndvi_at s p = Some v -> (-1 <= v <= 1)%Q.
Proof.
  unfold Spec.ndvi_at.
  destruct (App.QA60 s p) as [qa|]; [|discriminate].
  destruct (Spec.usable qa); [|discriminate].
  destruct (App.B8 s p) as [nir|]; [|discriminate].
  destruct (App.B4 s p) as [red|]; [|discriminate].
  apply nd_pixel_bounds; apply scale_nonneg.
Qed.

(** The rows of a charted series, one by one. *)
Lemma series_rows (w : App.World) (p : EE.Coords) (c : Spec.Category)
    (o : UI.Observation) :
  In o (Derived.series w p c) ->
  (exists s, In s (Spec.selected w p)
             /\ (o = Spec.real_obs p s \/ o = Spec.real_obs_marked p s))
  \/ In o (Spec.markers c).
Proof.
  unfold Derived.series.
  destruct (Spec.is_frost_event c).
  - intros Ho.
    apply (Permutation_in _ (sort_by_perm UI.timestamp _)) in Ho.
    apply in_app_or in Ho as [Ho|Ho]; [left|now right].
    apply in_map_iff in Ho as [s [<- Hs]]. eauto.
  - intros Ho. left.
    apply in_map_iff in Ho as [s [<- Hs]]. eauto.
Qed.

(** X5: whatever the archive and the raster, every value the chart plots
    fits its axes' scale: an index that is present lies between -1 and 1, a
    marker that is present is 0 or 1, and no row carries both an index and
    a marker. *)
Theorem X5_charted_values (w : App.World) (c : EE.Coords) (ui : UI.State)
    (ch : UI.Chart) (series : list UI.Observation) (o : UI.Observation)
    (Hch : App.shown_chart (App.click w c ui) = Some ch)
    (Hrows : UI.rows ch = Some series)
    (Ho : In o series) :
  (forall v, EE.lookup "NDVI" (UI.channels o) = Some (Some v) ->
             (-1 <= v <= 1)%Q)
  /\ (forall v, EE.lookup "FrostMarker" (UI.channels o) = Some (Some v) ->
                v = 0%Q \/ v = 1%Q)
  /\ (EE.lookup "NDVI" (UI.channels o) = Some None
      \/ EE.lookup "FrostMarker" (UI.channels o) = Some None
      \/ EE.lookup "FrostMarker" (UI.channels o) = None).
Proof.
  destruct (series_click w c ui) as [ch' [Hch' [Hrows' _]]].
  rewrite Hch in Hch'. injection Hch' as <-.
  rewrite Hrows in Hrows'. injection Hrows' as ->.
  apply series_rows in Ho as [[s [_ [->| ->]]]|Ho].
  - cbn. split; [|split; [discriminate|auto]].
    intros v [= Hv]. now apply (ndvi_at_bounds s (App.point c)).
  - cbn. split; [|split; [discriminate|auto]].
    intros v [= Hv]. now apply (ndvi_at_bounds s (App.point c)).
  - unfold Spec.markers in Ho.
    destruct (Spec.event_time _) as [t|]; [|destruct Ho].
    destruct Ho as [<-|[<-|[]]]; cbn;
      (split; [discriminate|split; [intros v [= <-]; auto|auto]]).
Qed.

Lemma X5_charted_values_witness :
  (forall v,
     EE.lookup "NDVI"
       (UI.channels (Spec.real_obs_marked Examples.p0 Examples.mar16))
     = Some (Some v) -> (-1 <= v <= 1)%Q)
  /\ (forall v,
        EE.lookup "FrostMarker"
          (UI.channels (Spec.real_obs_marked Examples.p0 Examples.mar16))
        = Some (Some v) -> v = 0%Q \/ v = 1%Q)
  /\ (EE.lookup "NDVI"
        (UI.channels (Spec.real_obs_marked Examples.p0 Examples.mar16))
      = Some None
      \/ EE.lookup "FrostMarker"
           (UI.channels (Spec.real_obs_marked Examples.p0 Examples.mar16))
         = Some None
      \/ EE.lookup "FrostMarker"
           (UI.channels (Spec.real_obs_marked Examples.p0 Examples.mar16))
         = None).
Proof.
  eapply (X5_charted_values Examples.frost_world Examples.p0 Examples.ui0).
  - reflexivity.
  - vm_compute. reflexivity.
  - vm_compute. right. left. reflexivity.
Defined.

(** ** Scenes and rows *)

Lemma selected_iff (w : App.World) (p : EE.Coords) (s : App.S2Scene) :
  In s (Spec.selected w p)
  <-> In s (App.S2_SR_HARMONIZED w)
      /\ App.scene_footprint s p = true
      /\ EE.Date 2020 9 1 <= App.scene_time_start s < EE.Date 2021 10 31
      /\ (App.scene_CLOUDY_PIXEL_PERCENTAGE s < 60)%Q.
Proof.
  unfold Spec.selected, Spec.in_study_window.
  rewrite !filter_In, andb_true_iff, Z.leb_le, Z.ltb_lt, negb_true_iff.
  assert (Hq : Qle_bool 60 (App.scene_CLOUDY_PIXEL_PERCENTAGE s) = false
               <-> (App.scene_CLOUDY_PIXEL_PERCENTAGE s < 60)%Q).
  { split.
    - intros H. apply Qnot_le_lt. intros Hle.
      apply Qle_bool_iff in Hle. congruence.
    - intros H. destruct (Qle_bool 60 _) eqn:E; [|reflexivity].
      apply Qle_bool_iff in E. apply Qlt_not_le in H. contradiction. }
  rewrite Hq. tauto.
Qed.

Lemma scene_row (w : App.World) (p : EE.Coords) (c : Spec.Category)
    (s : App.S2Scene) :
  In s (Spec.selected w p) ->
  exists o,
    In o (Derived.series w p c) /\ Spec.is_synthetic o = false
    /\ UI.timestamp o = Some (App.scene_time_start s).
Proof.
  intros Hs. unfold Derived.series.
  destruct (Spec.is_frost_event c).
  - exists (Spec.real_obs_marked p s). split; [|split; reflexivity].
    eapply Permutation_in; [symmetry; apply sort_by_perm|].
    apply in_or_app. left. now apply in_map.
  - exists (Spec.real_obs p s). split; [|split; reflexivity].
    now apply in_map.
Qed.

(** X6: which scenes reach the chart.  A scene of the archive contributes a
    row exactly when it covers the clicked point, is stamped from
    2020-09-01 00:00 UTC (included) to 2021-10-31 00:00 UTC (excluded) and
    has a scene-level cloud percentage strictly below 60; every row that is
    not a synthetic marker comes from such a scene and carries its
    timestamp. *)
Theorem X6_scene_filter (w : App.World) (c : EE.Coords) (ui : UI.State) :
  exists ch series,
    App.shown_chart (App.click w c ui) = Some ch
    /\ UI.rows ch = Some series
    /\ (forall s,
          In s (App.S2_SR_HARMONIZED w) ->
          App.scene_footprint s (App.point c) = true ->
          EE.Date 2020 9 1 <= App.scene_time_start s < EE.Date 2021 10 31 ->
          (App.scene_CLOUDY_PIXEL_PERCENTAGE s < 60)%Q ->
          exists o,
            In o series /\ Spec.is_synthetic o = false
            /\ UI.timestamp o = Some (App.scene_time_start s))
    /\ (forall o,
          In o series -> Spec.is_synthetic o = false ->
          exists s,
            In s (App.S2_SR_HARMONIZED w)
            /\ UI.timestamp o = Some (App.scene_time_start s)
            /\ App.scene_footprint s (App.point c) = true
            /\ EE.Date 2020 9 1 <= App.scene_time_start s < EE.Date 2021 10 31
            /\ (App.scene_CLOUDY_PIXEL_PERCENTAGE s < 60)%Q)
    /\ EE.Date 2020 9 1 = 1598918400000
    /\ EE.Date 2021 10 31 = 1635638400000.
Proof.
  destruct (series_click w c ui) as [ch [Hch [Hrows _]]].
  exists ch. eexists. split; [exact Hch|]. split; [exact Hrows|].
  split; [|split; [|split; reflexivity]].
  - intros s Hin Hf Ht Hq.
    assert (Hs : In s (Spec.selected w (App.point c)))
      by (apply selected_iff; auto).
    apply scene_row. exact Hs.
  - intros o Ho Hreal.
    apply series_rows in Ho as [[s [Hs Hos]]|Ho].
    + apply selected_iff in Hs as [Hin [Hf [Ht Hq]]].
      exists s. destruct Hos as [-> | ->]; auto.
    + pose proof (markers_synthetic
                    (Spec.category (Spec.sample w (App.point c)))) as Hsyn.
      rewrite <- Hsyn in Ho. apply filter_In in Ho as [_ Hsyn'].
      congruence.
Qed.

(** X7: with no scene of the archive at the clicked point in the study
    window, the chart is still built: it plots exactly the two marker rows
    for a frost-event pixel and no row at all for any other pixel. *)
Theorem X7_no_scene (w : App.World) (c : EE.Coords) (ui : UI.State)
    (Hnone : App.s2_chart_filtered w c = []) :
  exists ch,
    App.shown_chart (App.click w c ui) = Some ch
    /\ UI.rows ch
       = Some (Spec.markers (Spec.category (Spec.sample w (App.point c))))
    /\ List.length
         (Spec.markers (Spec.category (Spec.sample w (App.point c))))
       = if App.isFrostEvent (Spec.sample w (App.point c))
         then 2%nat else 0%nat.
Proof.
  destruct (series_click w c ui) as [ch [Hch [Hrows _]]].
  exists ch. split; [exact Hch|].
  rewrite s2_chart_filtered_selected in Hnone.
  apply map_eq_nil in Hnone.
  rewrite Hrows. unfold Derived.series. rewrite Hnone.
  rewrite isFrostEvent_category.
  destruct (Spec.is_frost_event _) eqn:Hc.
  - cbn [map app]. rewrite markers_sorted. split; [reflexivity|].
    now destruct (Spec.category _).
  - rewrite non_frost_markers by exact Hc. split; reflexivity.
Qed.

Lemma X7_no_scene_witness :
  exists ch,
    App.shown_chart
      (App.click (App.mkWorld [] (Examples.asset (Some 2) (Some 3)))
         Examples.p0 Examples.ui0) = Some ch
    /\ UI.rows ch
       = Some [Spec.marker (EE.Date 2021 6 30) 0;
               Spec.marker (EE.Date 2021 6 30 + 3600000) 1]
    /\ List.length
         [Spec.marker (EE.Date 2021 6 30) 0;
          Spec.marker (EE.Date 2021 6 30 + 3600000) 1] = 2%nat.
Proof.
  apply (X7_no_scene (App.mkWorld [] (Examples.asset (Some 2) (Some 3)))
           Examples.p0 Examples.ui0).
  reflexivity.
Defined.

(** ** Styling *)

Lemma series_channels (w : App.World) (p : EE.Coords)
    (result : EE.Dictionary Z) :
  Forall (fun o => map fst (UI.channels o) = App.bandsToSelect result)
    (Derived.series w p (Spec.category result)).
Proof.
  unfold Derived.series, App.bandsToSelect.
  rewrite isFrostEvent_category.
  destruct (Spec.is_frost_event _).
  - eapply Permutation_Forall; [symmetry; apply sort_by_perm|].
    apply Forall_app. split; [|apply markers_channels].
    apply Forall_forall. intros o Ho.
    apply in_map_iff in Ho as [s [<- _]]. reflexivity.
  - apply Forall_forall. intros o Ho.
    apply in_map_iff in Ho as [s [<- _]]. reflexivity.
Qed.

(** X8: the series options line up with the columns of the chart.  The
    options are numbered from 0 in order, there is one per channel of every
    row, the option at the position of the index channel is the one labelled
    NDVI, drawn in the color of the pixel's class on the first axis, and the
    option at the position of the marker channel is the black, pointless
    'Frost Event' line on the second axis. *)
Theorem X8_series_options_match_columns (w : App.World) (c : EE.Coords)
    (ui : UI.State) :
  exists ch series,
    App.shown_chart (App.click w c ui) = Some ch
    /\ UI.rows ch = Some series
    /\ Forall (fun o =>
                 map Trace.legend_of (map fst (UI.channels o))
                 = map UI.labelInLegend (UI.series ch)) series
    /\ map UI.series_index (UI.series ch)
       = seq 0 (List.length (UI.series ch))
    /\ Forall (fun so =>
                 if String.eqb (UI.labelInLegend so) "NDVI"
                 then UI.color so = App.lineColor (Spec.sample w (App.point c))
                      /\ UI.targetAxisIndex so = 0
                      /\ UI.lineWidth so = 2 /\ UI.pointSize so = 3
                 else UI.color so = "black"%string
                      /\ UI.targetAxisIndex so = 1
                      /\ UI.lineWidth so = 1 /\ UI.pointSize so = 0)
         (UI.series ch).
Proof.
  exists (App.chart w c (Spec.sample w (App.point c))). eexists.
  split; [apply shown_chart_click|]. split; [apply rows_chart|].
  cbn [UI.series App.chart].
  split; [|split].
  - eapply Forall_impl; [|apply series_channels].
    intros o ->. unfold App.bandsToSelect, App.seriesOptions.
    now destruct (App.isFrostEvent _).
  - unfold App.seriesOptions. now destruct (App.isFrostEvent _).
  - unfold App.seriesOptions.
    destruct (App.isFrostEvent _); repeat constructor.
Qed.

(** X9: the colors agree across the script.  For a corn pixel of frost
    class 1 to 4 the chart's line color is the entry of the map palette for
    that class and the color of the legend row of that class; for any other
    pixel the line is black (not corn) or gray (unknown class), two colors
    the palette does not contain. *)
Theorem X9_colors_agree (result : EE.Dictionary Z) :
  (if App.isCorn result
   then
     match App.frostVal result with
     | Some v =>
         if (1 <=? v) && (v <=? 4)
         then
           nth_error (Setup.palette Setup.frostVis)
             (Z.to_nat (v - Setup.palette_min Setup.frostVis))
           = Some (App.lineColor result)
           /\ option_map Setup.colorBox_backgroundColor
                (nth_error Setup.legendPanel (Z.to_nat (v - 1)))
              = Some (App.lineColor result)
         else App.lineColor result = "gray"%string
     | None => App.lineColor result = "gray"%string
     end
   else App.lineColor result = "black"%string)
  /\ ~ In "black"%string (Setup.palette Setup.frostVis)
  /\ ~ In "gray"%string (Setup.palette Setup.frostVis)
  /\ List.length (Setup.palette Setup.frostVis)
     = Z.to_nat (Setup.palette_max Setup.frostVis
                 - Setup.palette_min Setup.frostVis + 1)
  /\ map Setup.colorBox_backgroundColor Setup.legendPanel
     = Setup.palette Setup.frostVis.
Proof.
  split; [|split; [|split; [|split; reflexivity]]].
  - unfold App.lineColor, App.status.
    destruct (App.isCorn result); [|reflexivity]. cbn [negb].
    destruct (App.frostVal result) as [v|]; [|reflexivity].
    small_Z v; split; reflexivity.
  - cbn. intros H. repeat (destruct H as [H|H]; [discriminate|]). exact H.
  - cbn. intros H. repeat (destruct H as [H|H]; [discriminate|]). exact H.
Qed.

(** ** The maps when the script has loaded *)

Lemma forEach_app (w : App.World) (meets : App.S2Scene -> bool)
    (ds : list string) (index : nat) (layers : list UI.Layer) :
  Setup.forEach w meets index ds layers
  = layers ++ Setup.forEach w meets index ds [].
Proof.
  revert index layers.
  induction ds as [|date ds IH]; intros index layers; cbn [Setup.forEach].
  - now rewrite app_nil_r.
  - rewrite (IH (S index) (Setup.add_date w meets index date layers)).
    rewrite (IH (S index) (Setup.add_date w meets index date [])).
    unfold Setup.add_date, Setup.addLayer.
    now rewrite <- !app_assoc.
Qed.

Lemma forEach_later (w : App.World) (meets : App.S2Scene -> bool)
    (ds : list string) (index : nat) :
  map UI.layer_name (Setup.forEach w meets index ds [])
  = flat_map (fun date => [date ++ " (RGB)"; date ++ " (False Color)"]%string)
      ds
  /\ map (fun l => UI.vis_bands (UI.layer_visParams l))
       (Setup.forEach w meets index ds [])
     = flat_map (fun _ => [["B4"; "B3"; "B2"]; ["B8"; "B11"; "B4"]]%string) ds
  /\ (index <> 0%nat ->
      Forall (fun l => UI.layer_shown l = false)
        (Setup.forEach w meets index ds [])).
Proof.
  revert index.
  induction ds as [|date ds IH]; intros index; cbn [Setup.forEach].
  - repeat split. constructor.
  - rewrite forEach_app.
    destruct (IH (S index)) as [Hn [Hb Hs]].
    rewrite !map_app, Hn, Hb. repeat split.
    intros Hi. apply Forall_app. split; [|now apply Hs].
    unfold Setup.add_date, Setup.addLayer. cbn [app].
    apply Nat.eqb_neq in Hi. rewrite Hi. repeat constructor.
Qed.

(** X10: the loop over the dates gives the right map two layers per date, in
    the order of the dates, a true-color one named after the date followed
    by a false-color one; of all of them only the true-color layer of the
    first date is shown.  For the five dates of the script that is ten
    layers. *)
Theorem X10_date_layers (w : App.World) (meets : App.S2Scene -> bool)
    (ds : list string) :
  map UI.layer_name (Setup.forEach w meets 0 ds [])
  = flat_map (fun date => [date ++ " (RGB)"; date ++ " (False Color)"]%string)
      ds
  /\ map (fun l => UI.vis_bands (UI.layer_visParams l))
       (Setup.forEach w meets 0 ds [])
     = flat_map (fun _ => [["B4"; "B3"; "B2"]; ["B8"; "B11"; "B4"]]%string) ds
  /\ map UI.layer_shown (Setup.forEach w meets 0 ds [])
     = match ds with
       | [] => []
       | _ :: ds' => true :: repeat false (S (2 * List.length ds'))
       end
  /\ List.length (Setup.rightMap w meets) = 10%nat.
Proof.
  destruct (forEach_later w meets ds 0) as [Hn [Hb _]].
  split; [exact Hn|]. split; [exact Hb|]. split; [|reflexivity].
  destruct ds as [|date ds]; [reflexivity|].
  cbn [Setup.forEach]. rewrite forEach_app, map_app.
  destruct (forEach_later w meets ds 1) as [Hn' [_ Hs]].
  specialize (Hs ltac:(discriminate)).
  assert (Hlen : List.length (Setup.forEach w meets 1 ds [])
                 = (2 * List.length ds)%nat).
  { rewrite <- (length_map UI.layer_name), Hn'.
    clear. induction ds as [|d ds IH]; [reflexivity|].
    cbn [flat_map app List.length]. rewrite IH. lia. }
  assert (Hfalse : map UI.layer_shown (Setup.forEach w meets 1 ds [])
                   = repeat false (2 * List.length ds)).
  { rewrite <- Hlen. clear - Hs.
    induction Hs as [|l ls Hl _ IH]; [reflexivity|].
    cbn [map List.length repeat]. now rewrite Hl, IH. }
  rewrite Hfalse. reflexivity.
Qed.

(** X11: the classification layer of the left map is the frost band kept
    where the crop mask is 2.  At every point its value is the frost class
    the click handler reads when the click is classified as corn, and no
    value otherwise.  So a painted pixel is always one where a click is
    classified as corn, and the click reports the class that is painted; a
    click that is not classified as corn falls on an unpainted pixel and
    reports 'No corn mask'; and an unpainted pixel where the click is
    classified as corn is one where the frost band has no value, which the
    click reports as 'Unknown Class'. *)
Theorem X11_painted_pixels_are_corn (w : App.World) (c : EE.Coords) :
  exists layer,
    Setup.frostLayer w = Some layer
    /\ map snd (EE.reduceRegion layer (App.point c))
       = [if App.isCorn (Spec.sample w (App.point c))
          then App.frostVal (Spec.sample w (App.point c))
          else None]
    /\ (forall v,
          map snd (EE.reduceRegion layer (App.point c)) = [Some v] ->
          App.isCorn (Spec.sample w (App.point c)) = true
          /\ App.frostVal (Spec.sample w (App.point c)) = Some v
          /\ App.status (Spec.sample w (App.point c))
             = (Spec.label (fst (Spec.decision_table (Some 2) (Some v))),
                Spec.token (snd (Spec.decision_table (Some 2) (Some v)))))
    /\ (App.isCorn (Spec.sample w (App.point c)) = false ->
        map snd (EE.reduceRegion layer (App.point c)) = [None]
        /\ App.statusText (Spec.sample w (App.point c))
           = "No corn mask"%string)
    /\ (App.isCorn (Spec.sample w (App.point c)) = true ->
        map snd (EE.reduceRegion layer (App.point c)) = [None] ->
        App.frostVal (Spec.sample w (App.point c)) = None
        /\ App.statusText (Spec.sample w (App.point c))
           = "Unknown Class"%string).
Proof.
  eexists. split; [reflexivity|].
  match goal with
  | |- ?v = _ /\ _ =>
      assert (Hv : v = [if App.isCorn (Spec.sample w (App.point c))
                        then App.frostVal (Spec.sample w (App.point c))
                        else None])
  end.
  { unfold App.isCorn. rewrite cornVal_sample, frostVal_sample.
    cbn. unfold EE.lift1.
    destruct (App.band0 _ _) as [cm|]; [|reflexivity].
    cbn. small_Z cm. }
  rewrite Hv. split; [reflexivity|].
  pose proof (status_decision_table (Spec.sample w (App.point c))) as Hst.
  unfold App.statusText, App.status in *.
  destruct (App.isCorn (Spec.sample w (App.point c))) eqn:Hcorn.
  - assert (Hcm : App.cornVal (Spec.sample w (App.point c)) = Some 2).
    { unfold App.isCorn, App.strict_eq in Hcorn.
      destruct (App.cornVal _) as [cm|]; [|discriminate].
      apply Z.eqb_eq in Hcorn. now subst. }
    rewrite Hcm in Hst. cbn [negb] in *.
    split; [|split].
    + intros v [= Hf]. split; [reflexivity|]. split; [exact Hf|].
      now rewrite <- Hf.
    + discriminate.
    + intros _ [= Hf]. split; [exact Hf|]. now rewrite Hf.
  - cbn [negb]. split; [|split].
    + discriminate.
    + intros _. split; reflexivity.
    + discriminate.
Qed.

(** A corn pixel whose frost band has no value: nothing is painted there and
    the click reports an unknown class, not a missing corn mask. *)
Example corn_pixel_without_frost_class :
  option_map
    (fun layer => map snd (EE.reduceRegion layer (App.point Examples.p0)))
    (Setup.frostLayer (App.mkWorld [] (Examples.asset (Some 2) None)))
  = Some [None]
  /\ App.isCorn
       (Spec.sample (App.mkWorld [] (Examples.asset (Some 2) None))
          (App.point Examples.p0)) = true
  /\ App.statusText
       (Spec.sample (App.mkWorld [] (Examples.asset (Some 2) None))
          (App.point Examples.p0)) = "Unknown Class"%string.
Proof. repeat split. Qed.

(** ** The chart title *)

Section Title_facts.

Local Open Scope Q_scope.
Local Open Scope string_scope.

Lemma take_app (a r : string) : Title.take (String.length a) (a ++ r) = a.
Proof. induction a as [|c a IH]; simpl; [now destruct r|now rewrite IH]. Qed.

Lemma drop_app (a r : string) : Title.drop (String.length a) (a ++ r) = r.
Proof. induction a as [|c a IH]; simpl; [now destruct r|exact IH]. Qed.

Lemma take_drop (n : nat) (s : string) : Title.take n s ++ Title.drop n s = s.
Proof.
  revert s; induction n as [|n IH]; intros [|c s]; simpl; try reflexivity.
  now rewrite IH.
Qed.

Lemma length_append (a b : string) :
  String.length (a ++ b) = (String.length a + String.length b)%nat.
Proof. induction a as [|c a IH]; simpl; [reflexivity|now rewrite IH]. Qed.

Lemma length_drop (n : nat) (s : string) :
  String.length (Title.drop n s) = (String.length s - n)%nat.
Proof.
  revert s; induction n as [|n IH]; intros [|c s]; simpl; try reflexivity.
  apply IH.
Qed.

Lemma length_zeros (n : nat) : String.length (Title.zeros n) = n.
Proof. induction n as [|n IH]; simpl; [reflexivity|now rewrite IH]. Qed.

Lemma uint_zeros (j : nat) (t : string) (d : Decimal.uint) :
  NilEmpty.uint_of_string t = Some d ->
  exists d', NilEmpty.uint_of_string (Title.zeros j ++ t) = Some d'
             /\ N.of_uint d' = N.of_uint d.
Proof.
  intros Ht. induction j as [|j [d' [Hd' Hn]]]; simpl.
  - now exists d.
  - rewrite Hd'. simpl. exists (Decimal.D0 d'). split; [reflexivity|].
    rewrite <- Hn. reflexivity.
Qed.

Lemma to_uint_string (n : N) :
  NilZero.string_of_uint (N.to_uint n) = NilEmpty.string_of_uint (N.to_uint n).
Proof.
  destruct n as [|p]; [reflexivity|].
  unfold N.to_uint. destruct (Pos.to_uint p) eqn:E; try reflexivity.
  exfalso. revert E. apply DecimalPos.Unsigned.to_uint_nonnil.
Qed.

Lemma drop_app_S (a r : string) (x : ascii) :
  Title.drop (S (String.length a)) (a ++ String x r) = r.
Proof. induction a as [|c a IH]; simpl; [now destruct r|exact IH]. Qed.

Lemma magnitude_of_body (a b : string) (d : Decimal.uint) :
  String.length b = 4%nat -> a <> "" ->
  NilEmpty.uint_of_string (a ++ b) = Some d ->
  Title.magnitude_of_fixed (a ++ String "." b)
  = Some (inject_Z (Z.of_N (N.of_uint d)) / inject_Z 10000)%Q.
Proof.
  intros Hb Ha Hd. unfold Title.magnitude_of_fixed.
  assert (Hk : String.length (a ++ String "." b) = (String.length a + 5)%nat).
  { rewrite length_append. simpl. lia. }
  rewrite Hk.
  replace (String.length a + 5 - 5)%nat with (String.length a) by lia.
  replace (String.length a + 5 - 4)%nat with (S (String.length a)) by lia.
  rewrite drop_app, take_app, drop_app_S, Hd.
  assert (Hdot : Title.take 1 (String "." b) = ".") by now destruct b.
  rewrite Hdot. simpl negb. cbv iota.
  destruct (Nat.leb_spec (String.length a + 5) 5) as [Hle|_]; [|reflexivity].
  destruct a; [congruence|simpl in Hle; lia].
Qed.

Lemma digits_head (d : Decimal.uint) :
  match NilEmpty.string_of_uint d with
  | String c _ => Ascii.eqb c "-" = false
  | "" => True
  end.
Proof. destruct d; exact I || reflexivity. Qed.

(** The digit string [toFixed] cuts: at least five characters, no sign, and
    it reads back as the integer it was printed from. *)
Lemma padded_digits (n : N) (m : string) :
  m = NilZero.string_of_uint (N.to_uint n) ->
  let k := String.length m in
  let m' := if (k <=? 4)%nat then Title.zeros (4 + 1 - k) ++ m else m in
  let k' := if (k <=? 4)%nat then (4 + 1)%nat else k in
  String.length m' = k' /\ (5 <= k')%nat
  /\ (exists d, NilEmpty.uint_of_string m' = Some d /\ N.of_uint d = n)
  /\ match m' with String c _ => Ascii.eqb c "-" = false | "" => False end.
Proof.
  intros Hm k m' k'.
  assert (Hread : NilEmpty.uint_of_string m = Some (N.to_uint n)).
  { rewrite Hm, to_uint_string. apply NilEmpty.usu. }
  assert (Hhead : match m with
                  | String c _ => Ascii.eqb c "-" = false
                  | "" => True
                  end).
  { rewrite Hm, to_uint_string. apply digits_head. }
  subst m' k'. destruct (Nat.leb_spec k 4) as [Hk|Hk].
  - split; [rewrite length_append, length_zeros; fold k; lia|].
    split; [lia|]. split.
    + destruct (uint_zeros (4 + 1 - k) m _ Hread) as [d' [Hd' Hn]].
      exists d'. split; [exact Hd'|]. rewrite Hn. apply DecimalN.Unsigned.of_to.
    + destruct (4 + 1 - k)%nat as [|j] eqn:E; [lia|]. reflexivity.
  - split; [reflexivity|]. split; [lia|]. split.
    + exists (N.to_uint n). split; [exact Hread|apply DecimalN.Unsigned.of_to].
    + destruct m; [simpl in k; lia|exact Hhead].
Qed.

Lemma digits_with_point_read (n : N) :
  Title.magnitude_of_fixed (Title.digits_with_point n)
  = Some (inject_Z (Z.of_N n) / inject_Z 10000)%Q
  /\ match Title.digits_with_point n with
     | String c _ => Ascii.eqb c "-" = false
     | "" => False
     end.
Proof.
  unfold Title.digits_with_point.
  destruct (padded_digits n _ eq_refl) as [Hlen [Hk [[d [Hd Hn]] Hhead]]].
  cbv zeta in Hlen, Hk, Hd, Hhead.
  set (m := NilZero.string_of_uint (N.to_uint n)) in *.
  set (k := String.length m) in *.
  set (m' := if (k <=? 4)%nat then Title.zeros (4 + 1 - k) ++ m else m) in *.
  set (k' := if (k <=? 4)%nat then (4 + 1)%nat else k) in *.
  clearbody m' k'. clear m k.
  assert (Ha : Title.take (k' - 4) m' <> "").
  { destruct m' as [|c m']; [contradiction|].
    destruct (k' - 4)%nat eqn:E; [lia|]. discriminate. }
  split.
  - rewrite <- Hn. apply magnitude_of_body.
    + rewrite length_drop. lia.
    + exact Ha.
    + now rewrite take_drop.
  - destruct m' as [|c m']; [contradiction|].
    destruct (k' - 4)%nat eqn:E; [lia|]. exact Hhead.
Qed.

Lemma nearest_bound (x : Q) :
  0 <= x ->
  Qabs (inject_Z (Z.of_N (Z.to_N (Qfloor (x * inject_Z 10000 + (1 # 2)))))
        / inject_Z 10000 - x) <= 1 # 20000.
Proof.
  intros Hx.
  set (y := x * inject_Z 10000 + (1 # 2)).
  assert (Hy : 0 <= y).
  { unfold y. change (inject_Z 10000) with (10000 # 1). lra. }
  assert (H0 : (0 <= Qfloor y)%Z).
  { change 0%Z with (Qfloor 0). now apply Qfloor_resp_le. }
  rewrite Z2N.id by exact H0.
  pose proof (Qfloor_le y) as Hlo. pose proof (Qlt_floor y) as Hhi.
  rewrite inject_Z_plus in Hhi.
  unfold y in Hlo, Hhi. change (inject_Z 10000) with (10000 # 1) in *.
  change (inject_Z 1) with 1 in Hhi.
  apply Qabs_Qle_condition. set (f := inject_Z (Qfloor _)) in *.
  unfold Qdiv. change (/ (10000 # 1)) with (1 # 10000).
  split; lra.
Qed.

Lemma toFixed4_reads_back (x : Q) :
  Qabs x < inject_Z (10 ^ 21) ->
  exists s v, Title.toFixed4 x = Some s /\ Title.value_of_fixed s = Some v
              /\ Qabs (v - x) <= 1 # 20000.
Proof.
  intros Hx. unfold Title.toFixed4.
  destruct (Qle_bool 0 x) eqn:Hs.
  - apply Qle_bool_iff in Hs. rewrite Qabs_pos in Hx by exact Hs.
    destruct (Qle_bool (inject_Z (10 ^ 21)) x) eqn:Hbig.
    { apply Qle_bool_iff in Hbig. exfalso. revert Hx. now apply Qle_not_lt. }
    set (n := Z.to_N _).
    destruct (digits_with_point_read n) as [Hm Hh].
    eexists. eexists. split; [reflexivity|]. split.
    + simpl append. unfold Title.value_of_fixed.
      destruct (Title.digits_with_point n) as [|c r]; [contradiction|].
      rewrite Hh. exact Hm.
    + now apply nearest_bound.
  - assert (Hneg : x < 0).
    { apply Qnot_le_lt. intros H. apply Qle_bool_iff in H. congruence. }
    rewrite Qabs_neg in Hx by now apply Qlt_le_weak.
    destruct (Qle_bool (inject_Z (10 ^ 21)) (- x)) eqn:Hbig.
    { apply Qle_bool_iff in Hbig. exfalso. revert Hx. now apply Qle_not_lt. }
    set (n := Z.to_N _).
    destruct (digits_with_point_read n) as [Hm Hh].
    eexists. eexists. split; [reflexivity|]. split.
    + simpl. rewrite Hm. reflexivity.
    + assert (H0 : 0 <= - x) by lra.
      pose proof (nearest_bound (- x) H0) as Hb. fold n in Hb.
      apply Qabs_Qle_condition in Hb. apply Qabs_Qle_condition.
      set (f := inject_Z (Z.of_N n) / inject_Z 10000) in *.
      clearbody f. split; lra.
Qed.

End Title_facts.

(** X12 (the chart title): for a click whose coordinates are below 10^21 in
    magnitude the title is the status label between the fixed texts, followed
    by the latitude and the longitude, each printed with a point and four
    decimals and each reading back to within 0.00005 of the clicked value. *)
Theorem X12_title_coordinates (coords : EE.Coords) (result : EE.Dictionary Z) :
  (Qabs (EE.lat coords) < inject_Z (10 ^ 21))%Q ->
  (Qabs (EE.lon coords) < inject_Z (10 ^ 21))%Q ->
  exists la lo vla vlo,
    Title.titleStr coords result
    = Some ("Sentinel-2 NDVI | " ++ App.statusText result ++ " | Lat: " ++ la
            ++ " Lon: " ++ lo)%string
    /\ Title.value_of_fixed la = Some vla
    /\ Title.value_of_fixed lo = Some vlo
    /\ (Qabs (vla - EE.lat coords) <= 1 # 20000)%Q
    /\ (Qabs (vlo - EE.lon coords) <= 1 # 20000)%Q.
Proof.
  intros Hlat Hlon.
  destruct (toFixed4_reads_back _ Hlat) as [la [vla [Hla [Hvla Hbla]]]].
  destruct (toFixed4_reads_back _ Hlon) as [lo [vlo [Hlo [Hvlo Hblo]]]].
  exists la, lo, vla, vlo. unfold Title.titleStr. rewrite Hla, Hlo.
  repeat split; assumption || reflexivity.
Qed.

Lemma X12_title_coordinates_witness :
  exists la lo vla vlo,
    Title.titleStr Examples.p0 []
    = Some ("Sentinel-2 NDVI | " ++ App.statusText [] ++ " | Lat: " ++ la
            ++ " Lon: " ++ lo)%string
    /\ Title.value_of_fixed la = Some vla
    /\ Title.value_of_fixed lo = Some vlo
    /\ (Qabs (vla - EE.lat Examples.p0) <= 1 # 20000)%Q
    /\ (Qabs (vlo - EE.lon Examples.p0) <= 1 # 20000)%Q.
Proof.
  apply (X12_title_coordinates Examples.p0 []); reflexivity.
Defined.

(** The printed forms at the edges: a tie goes up, and a negative value that
    rounds to zero keeps its sign. *)
Example toFixed4_edges :
  map Title.toFixed4 [(-25123456 # 1000000)%Q; (5 # 100000)%Q;
                      (-1 # 100000)%Q; inject_Z (10 ^ 21)]
  = [Some "-25.1235"%string; Some "0.0001"%string; Some "-0.0000"%string;
     None].
Proof. reflexivity. Qed.
